(** * Generation gossip transport of the broker: a shallow embedding

    The development follows three source files of the repository:
    - the [types] package  (BrokerInfo, TopicDataId, Generation, GenStatus),
    - the [interbroker] gossiper (client side: [requestGet], [requestPost],
      [GetGenerations], [SetGenerationAsProposed], [SetAsCommitted],
      [RegisterGenListener], [WaitForPeersUp]; server side: [getGenHandler],
      [postGenHandler], [postGenAcceptHandler]),
    - the [consuming] read queue ([marshalResponse],
      [consumerResponseItem.Marshal]).

    Go values are modelled as follows: [int], [int64] and [Token] are [Z]
    (range checks are written where the code performs them), a pointer or an
    interface value that may be nil is an [option], a slice is an optional
    list (nil is [None]), [error] is an inductive type, and a call that can
    panic or end the process returns an [Outcome]. *)

From Stdlib Require Import ZArith List String Ascii Bool Lia.
From Stdlib Require Import Strings.Byte DecimalString DecimalN.
Import ListNotations.
Open Scope Z_scope.
Set Warnings "-register-all".

(* ================================================================= *)
(** ** Go runtime: outcomes, errors, slices, indexing *)

(** How a Go call ends: it returns, it panics, or the process exits
    ([os.Exit], reached through [log.Fatal]). *)
Inductive Outcome (A : Type) : Type :=
| Returned (a : A)
| Panicked (msg : string)
| Exited (code : Z).
Arguments Returned {A} a.
Arguments Panicked {A} msg.
Arguments Exited {A} code.

(** Values of Go's [error] interface that the modelled code creates or
    passes on. *)
Inductive error : Type :=
| ErrText (msg : string)                (* errors.New *)
| ErrFmt (format : string) (arg : Z)    (* fmt.Errorf with one %d *)
| HttpError (status : Z) (msg : string) (* types.NewHttpError *)
| ErrParse (what : string)              (* strconv, encoding/json *)
| ErrOther (tag : Z).                   (* any error made elsewhere *)

(** Result of a library call of the shape [(T, error)]. *)
Inductive Result (A : Type) : Type :=
| Ok (a : A)
| Err (e : error).
Arguments Ok {A} a.
Arguments Err {A} e.

(** A slice: [None] is the nil slice. *)
Definition slice (A : Type) : Type := option (list A).

Definition elems {A : Type} (s : slice A) : list A :=
  match s with Some l => l | None => [] end.

Definition len {A : Type} (s : slice A) : Z := Z.of_nat (List.length (elems s)).

Definition nilDeref : string :=
  "invalid memory address or nil pointer dereference"%string.

Definition indexOutOfRange : string := "index out of range"%string.

(** [a[i]] on an array or slice with elements [l]: a run-time panic outside
    [0 .. len-1]. *)
Definition indexAt {A : Type} (l : list A) (i : Z) : Outcome A :=
  if i <? 0 then Panicked indexOutOfRange
  else match nth_error l (Z.to_nat i) with
       | Some a => Returned a
       | None => Panicked indexOutOfRange
       end.

(* ================================================================= *)
(** ** Package types *)

(** [Token] is a 64-bit signed integer: the handlers convert the result of
    [strconv.ParseInt(_, 10, 64)] to it, and [binary.Write] takes it as a
    fixed-size value. *)
Definition Token : Type := Z.

(** [uuid.UUID] is [[16]byte]; the value is kept as its 128-bit number. *)
Definition UUID : Type := N.

Record BrokerInfo : Type := {
  IsSelf : bool;
  Ordinal : Z;
  HostName : string
}.

Record TopicInfo : Type := { TopicName : string }.

Record ReplicationInfo : Type := {
  RLeader : option BrokerInfo;
  RFollowers : list BrokerInfo;
  RToken : Token
}.

(** TopicDataId as the types package declares it: a topic, for a token, for
    a defined gen id. *)
Record TopicDataId : Type := {
  Name : string;
  TToken : Token;
  GenId : Z                              (* uint16 *)
}.

Definition GenStatus : Type := Z.

Definition genStatusNames : list string :=
  ["Cancelled"; "Proposed"; "Accepted"; "Committed"]%string.

Definition GenStatus_String (s : GenStatus) : Outcome string :=
  indexAt genStatusNames s.

Definition StatusCancelled : GenStatus := 0.
Definition StatusProposed : GenStatus := 1.
Definition StatusAccepted : GenStatus := 2.
Definition StatusCommitted : GenStatus := 3.

Record Generation : Type := {
  Start : Token;
  End_ : Token;
  Version : Z;
  Timestamp : Z;
  Leader : Z;
  Followers : slice Z;
  Tx : UUID;
  TxLeader : Z;
  Status : GenStatus;
  ToDelete : bool
}.

(** The zero value of [Generation]. *)
Definition zeroGeneration : Generation :=
  {| Start := 0; End_ := 0; Version := 0; Timestamp := 0; Leader := 0;
     Followers := None; Tx := 0%N; TxLeader := 0; Status := 0;
     ToDelete := false |}.

(** The components a [TopicDataId] is made of. *)
Definition TopicDataId_components (t : TopicDataId) : string * Token * Z :=
  (Name t, TToken t, GenId t).

(* ================================================================= *)
(** ** JSON values and the library calls the code relies on *)

(** A JSON document after parsing.  [JInt] is a number written as an integer
    literal, [JFrac] any other number literal (fraction or exponent). *)
Inductive json : Type :=
| JNull
| JBool (b : bool)
| JInt (z : Z)
| JFrac (lit : string)
| JStr (s : string)
| JArr (items : list json)
| JObj (members : list (string * json)).

(** What a request or response body holds: a JSON document, or bytes that
    are not one ([None]). *)
Definition Body : Type := option json.

(** Functions of libraries outside the repository, kept abstract. *)
Class GoLib : Type := {
  (** [uuid.UUID.MarshalText]. *)
  uuidString : UUID -> string;
  (** [uuid.UUID.UnmarshalText]. *)
  uuidParse : string -> option UUID;
  (** encoding/json's match of an object key against a field name. *)
  equalFold : string -> string -> bool;
  (** [strconv.ParseInt(strings.TrimSpace(s), 10, 64)]. *)
  parseInt64 : string -> option Z
}.

Inductive ByteOrder : Type := BigEndian | LittleEndian.

(** Constants and helpers of the repository whose declarations are not among
    the source files (package [conf], the gossiper's [getPeerUrl],
    [Token.String], the consumer content type): parameters of the model. *)
Class Conf : Type := {
  (** [fmt.Sprintf(conf.GossipGenerationUrl, s)]. *)
  gossipGenerationUrl : string -> string;
  (** [fmt.Sprintf(conf.GossipGenerationProposeUrl, token)]. *)
  gossipGenerationProposeUrl : Token -> string;
  getPeerUrl : BrokerInfo -> string -> string;
  tokenString : Token -> string;
  (** [conf.Endianness]. *)
  Endianness : ByteOrder;
  contentType : string
}.

(** *** json.Marshal on the types of the package *)

Definition marshalIntSlice (s : slice Z) : json :=
  match s with
  | None => JNull
  | Some l => JArr (map JInt l)
  end.

Definition marshalGeneration `{GoLib} (g : Generation) : json :=
  JObj [ ("start", JInt (Start g));
         ("end", JInt (End_ g));
         ("version", JInt (Version g));
         ("timestamp", JInt (Timestamp g));
         ("leader", JInt (Leader g));
         ("followers", marshalIntSlice (Followers g));
         ("tx", JStr (uuidString (Tx g)));
         ("txLeader", JInt (TxLeader g));
         ("status", JInt (Status g));
         ("toDelete", JBool (ToDelete g)) ]%string.

Definition marshalGenerationPtr `{GoLib} (g : option Generation) : json :=
  match g with
  | None => JNull
  | Some g => marshalGeneration g
  end.

Definition marshalUUID `{GoLib} (u : UUID) : json := JStr (uuidString u).

Definition marshalUUIDPtr `{GoLib} (u : option UUID) : json :=
  match u with
  | None => JNull
  | Some u => marshalUUID u
  end.

(** Modelled from the spec: [GenerationProposeMessage] is not declared in
    the source files; the spec gives its wire form as the object
    [{generation: Generation, expectedTx: TransactionId|null}]. *)
Record GenerationProposeMessage : Type := {
  MsgGeneration : option Generation;
  MsgExpectedTx : option UUID
}.

Definition marshalProposeMessage `{GoLib} (m : GenerationProposeMessage) : json :=
  JObj [ ("generation", marshalGenerationPtr (MsgGeneration m));
         ("expectedTx", marshalUUIDPtr (MsgExpectedTx m)) ]%string.

(** *** json.Decoder.Decode on the types of the package

    Each function takes the JSON value and the current value of the target
    ([null] leaves a non-pointer target as it is).  Any type mismatch makes
    [Decode] return an error; the callers below drop the target then, so the
    model keeps the error only. *)

Definition typeError : error := ErrParse "json: cannot unmarshal"%string.

Definition inInt64 (z : Z) : bool := (- 2 ^ 63 <=? z) && (z <? 2 ^ 63).

Definition unmarshalInt (j : json) (cur : Z) : Result Z :=
  match j with
  | JNull => Ok cur
  | JInt z => if inInt64 z then Ok z else Err typeError
  | _ => Err typeError
  end.

Definition unmarshalBool (j : json) (cur : bool) : Result bool :=
  match j with
  | JNull => Ok cur
  | JBool b => Ok b
  | _ => Err typeError
  end.

Definition unmarshalUUID `{GoLib} (j : json) (cur : UUID) : Result UUID :=
  match j with
  | JNull => Ok cur
  | JStr s => match uuidParse s with
              | Some u => Ok u
              | None => Err (ErrParse "invalid UUID"%string)
              end
  | _ => Err typeError
  end.

Fixpoint mapResult {A B : Type} (f : A -> Result B) (l : list A) : Result (list B) :=
  match l with
  | [] => Ok []
  | a :: l' =>
      match f a with
      | Err e => Err e
      | Ok b => match mapResult f l' with
                | Err e => Err e
                | Ok bs => Ok (b :: bs)
                end
      end
  end.

(** A JSON array read into a slice field; the elements start from zero. *)
Definition unmarshalIntSlice (j : json) (cur : slice Z) : Result (slice Z) :=
  match j with
  | JNull => Ok None
  | JArr l => match mapResult (fun e => unmarshalInt e 0) l with
              | Ok zs => Ok (Some zs)
              | Err e => Err e
              end
  | _ => Err typeError
  end.

Definition withStart (g : Generation) (x : Token) : Generation :=
  {| Start := x; End_ := End_ g; Version := Version g; Timestamp := Timestamp g;
     Leader := Leader g; Followers := Followers g; Tx := Tx g;
     TxLeader := TxLeader g; Status := Status g; ToDelete := ToDelete g |}.
Definition withEnd (g : Generation) (x : Token) : Generation :=
  {| Start := Start g; End_ := x; Version := Version g; Timestamp := Timestamp g;
     Leader := Leader g; Followers := Followers g; Tx := Tx g;
     TxLeader := TxLeader g; Status := Status g; ToDelete := ToDelete g |}.
Definition withVersion (g : Generation) (x : Z) : Generation :=
  {| Start := Start g; End_ := End_ g; Version := x; Timestamp := Timestamp g;
     Leader := Leader g; Followers := Followers g; Tx := Tx g;
     TxLeader := TxLeader g; Status := Status g; ToDelete := ToDelete g |}.
Definition withTimestamp (g : Generation) (x : Z) : Generation :=
  {| Start := Start g; End_ := End_ g; Version := Version g; Timestamp := x;
     Leader := Leader g; Followers := Followers g; Tx := Tx g;
     TxLeader := TxLeader g; Status := Status g; ToDelete := ToDelete g |}.
Definition withLeader (g : Generation) (x : Z) : Generation :=
  {| Start := Start g; End_ := End_ g; Version := Version g; Timestamp := Timestamp g;
     Leader := x; Followers := Followers g; Tx := Tx g;
     TxLeader := TxLeader g; Status := Status g; ToDelete := ToDelete g |}.
Definition withFollowers (g : Generation) (x : slice Z) : Generation :=
  {| Start := Start g; End_ := End_ g; Version := Version g; Timestamp := Timestamp g;
     Leader := Leader g; Followers := x; Tx := Tx g;
     TxLeader := TxLeader g; Status := Status g; ToDelete := ToDelete g |}.
Definition withTx (g : Generation) (x : UUID) : Generation :=
  {| Start := Start g; End_ := End_ g; Version := Version g; Timestamp := Timestamp g;
     Leader := Leader g; Followers := Followers g; Tx := x;
     TxLeader := TxLeader g; Status := Status g; ToDelete := ToDelete g |}.
Definition withTxLeader (g : Generation) (x : Z) : Generation :=
  {| Start := Start g; End_ := End_ g; Version := Version g; Timestamp := Timestamp g;
     Leader := Leader g; Followers := Followers g; Tx := Tx g;
     TxLeader := x; Status := Status g; ToDelete := ToDelete g |}.
Definition withStatus (g : Generation) (x : GenStatus) : Generation :=
  {| Start := Start g; End_ := End_ g; Version := Version g; Timestamp := Timestamp g;
     Leader := Leader g; Followers := Followers g; Tx := Tx g;
     TxLeader := TxLeader g; Status := x; ToDelete := ToDelete g |}.
Definition withToDelete (g : Generation) (x : bool) : Generation :=
  {| Start := Start g; End_ := End_ g; Version := Version g; Timestamp := Timestamp g;
     Leader := Leader g; Followers := Followers g; Tx := Tx g;
     TxLeader := TxLeader g; Status := Status g; ToDelete := x |}.

Definition mapOk {A B : Type} (f : A -> B) (r : Result A) : Result B :=
  match r with
  | Ok a => Ok (f a)
  | Err e => Err e
  end.

(** One member [key: v] of a JSON object read into the struct: the field is
    found by its json tag, a key that names no field is skipped. *)
Definition unmarshalField `{GoLib} (key : string) (v : json) (g : Generation)
  : Result Generation :=
  if equalFold key "start" then mapOk (withStart g) (unmarshalInt v (Start g))
  else if equalFold key "end" then mapOk (withEnd g) (unmarshalInt v (End_ g))
  else if equalFold key "version" then mapOk (withVersion g) (unmarshalInt v (Version g))
  else if equalFold key "timestamp" then mapOk (withTimestamp g) (unmarshalInt v (Timestamp g))
  else if equalFold key "leader" then mapOk (withLeader g) (unmarshalInt v (Leader g))
  else if equalFold key "followers" then mapOk (withFollowers g) (unmarshalIntSlice v (Followers g))
  else if equalFold key "tx" then mapOk (withTx g) (unmarshalUUID v (Tx g))
  else if equalFold key "txLeader" then mapOk (withTxLeader g) (unmarshalInt v (TxLeader g))
  else if equalFold key "status" then mapOk (withStatus g) (unmarshalInt v (Status g))
  else if equalFold key "toDelete" then mapOk (withToDelete g) (unmarshalBool v (ToDelete g))
  else Ok g.

Fixpoint unmarshalMembers `{GoLib} (ms : list (string * json)) (g : Generation)
  : Result Generation :=
  match ms with
  | [] => Ok g
  | (key, v) :: ms' =>
      match unmarshalField key v g with
      | Ok g' => unmarshalMembers ms' g'
      | Err e => Err e
      end
  end.

(** A JSON value read into a [Generation] struct. *)
Definition unmarshalGeneration `{GoLib} (j : json) (cur : Generation)
  : Result Generation :=
  match j with
  | JNull => Ok cur
  | JObj ms => unmarshalMembers ms cur
  | _ => Err typeError
  end.

(** A JSON value read into a [*Generation] element that is nil before:
    [null] keeps nil, anything else allocates a zero struct and fills it. *)
Definition unmarshalGenerationPtr `{GoLib} (j : json) : Result (option Generation) :=
  match j with
  | JNull => Ok None
  | _ => mapOk Some (unmarshalGeneration j zeroGeneration)
  end.

(** [Decode] into [var gens []Generation]. *)
Definition decodeGenerations `{GoLib} (b : Body) : Result (slice Generation) :=
  match b with
  | None => Err (ErrParse "json: invalid input"%string)
  | Some JNull => Ok None
  | Some (JArr l) =>
      mapOk Some (mapResult (fun e => unmarshalGeneration e zeroGeneration) l)
  | Some _ => Err typeError
  end.

(** [Decode] into [var gens []*Generation]. *)
Definition decodeGenerationPtrs `{GoLib} (b : Body) : Result (slice (option Generation)) :=
  match b with
  | None => Err (ErrParse "json: invalid input"%string)
  | Some JNull => Ok None
  | Some (JArr l) => mapOk Some (mapResult unmarshalGenerationPtr l)
  | Some _ => Err typeError
  end.

(** [Decode] into [var gen Generation]. *)
Definition decodeGeneration `{GoLib} (b : Body) : Result Generation :=
  match b with
  | None => Err (ErrParse "json: invalid input"%string)
  | Some j => unmarshalGeneration j zeroGeneration
  end.

(** [Encode] of a slice of generation pointers. *)
Definition marshalGenerationPtrs `{GoLib} (s : slice (option Generation)) : json :=
  match s with
  | None => JNull
  | Some l => JArr (map marshalGenerationPtr l)
  end.

(* ================================================================= *)
(** ** The gossiper and the world it runs in *)

(** Time in nanoseconds, as [time.Duration] counts it. *)
Definition Time : Type := Z.

Definition Millisecond : Time := 1000000.
Definition Second : Time := 1000 * Millisecond.
Definition Minute : Time := 60 * Second.

Definition waitForUpDelay : Time := 200 * Millisecond.
Definition waitForUpMaxWait : Time := 10 * Minute.

(** [int(d.Seconds())] for a duration that is not negative. *)
Definition wholeSeconds (d : Time) : Z := d / Second.

Record Response : Type := {
  StatusCode : Z;
  StatusText : string;
  RespBody : Body
}.

Definition StatusOK : Z := 200.
Definition StatusBadRequest : Z := 400.

(** The [http.Client] of a peer connection: what an exchange started at a
    given instant yields, as the pair [(response, error)] of the call. *)
Record httpClient : Type := {
  Get : Time -> string -> option Response * option error;
  Post : Time -> string -> string -> json -> option Response * option error
}.

(** The connection record of a peer.  The declaration of [clientInfo] is not
    among the source files: the record holds what the gossiper uses of it,
    the HTTP client and the liveness flag read by [isHostUp()]. *)
Record clientInfo : Type := {
  client : httpClient;
  isHostUp : Time -> bool
}.

(** The discoverer, as far as the gossiper calls it. *)
Record Discoverer : Type := {
  Peers : Time -> list BrokerInfo;
  Brokers : Time -> list BrokerInfo
}.

(** The local store, as far as the gossiper calls it.  Package [localdb] is
    not among the source files; the result is taken to be a slice of
    generation slots, which is what [GetGenerations] decodes on the other
    side. *)
Record localdb_Client : Type := {
  GetGenerationsByToken : Token -> Result (slice (option Generation))
}.

(** The listener the gossiper forwards inbound requests to: the two methods
    the interface declares and the two the handlers call. *)
Record GenListener : Type := {
  OnRemoteSetAsProposed : option Generation -> option UUID -> option error;
  OnRemoteSetAsCommitted : Token -> UUID -> option error;
  OnNewRemoteGeneration : option Generation -> option Generation -> option error;
  OnRemoteSetAsAccepted : option Generation -> option error
}.

(** The fields of [gossiper] that the modelled methods read or write.
    [connections] is the map held by the atomic value at each instant. *)
Record gossiper : Type := {
  discoverer : Discoverer;
  localDb : option localdb_Client;
  genListener : option GenListener;
  connections : Time -> Z -> option clientInfo
}.

Definition NewGossiper (d : Discoverer) : gossiper :=
  {| discoverer := d;
     localDb := None;
     genListener := None;
     connections := fun _ _ => None |}.

Inductive LogLevel : Type := LevelInfo | LevelWarn | LevelFatal.

(** What a run leaves behind, in order. *)
Inductive Event : Type :=
| EvLog (lvl : LogLevel) (format : string) (arg : option Z)
| EvPoll (at_ : Time) (ordinal : Z) (up : bool)
| EvSleep (d : Time)
| EvNewRemoteGeneration (existing new : option Generation)
| EvRemoteSetAsAccepted (gen : option Generation).

Record World : Type := {
  gsp : gossiper;
  clock : Time;
  trace : list Event
}.

(** A method of the gossiper: it runs in a world and ends in an outcome. *)
Definition Go (A : Type) : Type := World -> Outcome A * World.

Definition ret {A : Type} (a : A) : Go A := fun w => (Returned a, w).

Definition bind {A B : Type} (m : Go A) (k : A -> Go B) : Go B :=
  fun w =>
    match m w with
    | (Returned a, w') => k a w'
    | (Panicked msg, w') => (Panicked msg, w')
    | (Exited c, w') => (Exited c, w')
    end.

Declare Scope go_scope.
Delimit Scope go_scope with go.
Notation "x <- m ;; k" := (bind m (fun x => k))
  (at level 100, m at next level, right associativity) : go_scope.
Notation "m ;;; k" := (bind m (fun _ => k))
  (at level 100, right associativity) : go_scope.
Open Scope go_scope.

Definition panic {A : Type} (msg : string) : Go A := fun w => (Panicked msg, w).

Definition exit {A : Type} (code : Z) : Go A := fun w => (Exited code, w).

Definition emit (e : Event) : Go unit :=
  fun w => (Returned tt, {| gsp := gsp w; clock := clock w; trace := trace w ++ [e] |}).

Definition now : Go Time := fun w => (Returned (clock w), w).

Definition self : Go gossiper := fun w => (Returned (gsp w), w).

Definition sleep (d : Time) : Go unit :=
  fun w => (Returned tt,
            {| gsp := gsp w; clock := clock w + d; trace := trace w ++ [EvSleep d] |}).

Definition setGenListener (l : option GenListener) : Go unit :=
  fun w => (Returned tt,
            {| gsp := {| discoverer := discoverer (gsp w);
                         localDb := localDb (gsp w);
                         genListener := l;
                         connections := connections (gsp w) |};
               clock := clock w; trace := trace w |}).

(** Lift of an [Outcome] computed without the world. *)
Definition liftOutcome {A : Type} (o : Outcome A) : Go A := fun w => (o, w).

(** [log.Fatal()...Msgf]: the message is written, then the process exits. *)
Definition logFatal {A : Type} (format : string) (arg : option Z) : Go A :=
  emit (EvLog LevelFatal format arg) ;;; exit 1.

(** The gossiper's [getClientInfo] (its body is not among the source
    files): the connection of a peer in the current map, nil when the map
    has none. *)
Definition getClientInfo (ordinal : Z) : Go (option clientInfo) :=
  fun w => (Returned (connections (gsp w) (clock w) ordinal), w).

(* ----------------------------------------------------------------- *)
(** *** Registration of the listener *)

Definition RegisterGenListener (listener : option GenListener) : Go unit :=
  g <- self ;;
  match genListener g with
  | Some _ => panic "Listener registered multiple times"
  | None => setGenListener listener
  end.

(* ----------------------------------------------------------------- *)
(** *** The startup barrier *)

(** The inner [range] loop of [WaitForPeersUp]: [true] stands for the early
    return at the first peer whose connection exists and reports up. *)
Fixpoint anyPeerUp (peers : list BrokerInfo) : Go bool :=
  match peers with
  | [] => ret false
  | peer :: rest =>
      c <- getClientInfo (Ordinal peer) ;;
      t <- now ;;
      let up := match c with
                | Some ci => isHostUp ci t
                | None => false
                end in
      emit (EvPoll t (Ordinal peer) up) ;;;
      if up then ret true else anyPeerUp rest
  end.

(** How one turn of a [for { ... }] loop ends. *)
Inductive LoopCtl (S : Type) : Type :=
| Break
| Continue (s : S).
Arguments Break {S}.
Arguments Continue {S} s.

(** [for { body }] with the loop's variables [s]; [None] when the given
    number of turns did not end the loop. *)
Fixpoint forever {S : Type} (fuel : nat) (body : S -> Go (LoopCtl S)) (s : S)
  (w : World) : option (Outcome unit * World) :=
  match fuel with
  | O => None
  | S fuel' =>
      match body s w with
      | (Returned Break, w') => Some (Returned tt, w')
      | (Returned (Continue s'), w') => forever fuel' body s' w'
      | (Panicked msg, w') => Some (Panicked msg, w')
      | (Exited c, w') => Some (Exited c, w')
      end
  end.

(** One turn of the loop of [WaitForPeersUp]; the loop variable is
    [lastWarn]. *)
Definition waitTurn (start : Time) (lastWarn : Z) : Go (LoopCtl Z) :=
  g <- self ;;
  t <- now ;;
  up <- anyPeerUp (Peers (discoverer g) t) ;;
  if up then ret Break
  else
    t' <- now ;;
    let elapsed := wholeSeconds (t' - start) in
    lastWarn' <-
      (if (1 <? elapsed) && (Z.rem elapsed 5 =? 0) && negb (elapsed =? lastWarn)
       then emit (EvLog LevelInfo "Waiting for peer after %d seconds" (Some elapsed)) ;;;
            ret elapsed
       else ret lastWarn) ;;
    (if wholeSeconds waitForUpMaxWait <? elapsed
     then logFatal "No peer up after %d seconds" (Some elapsed)
     else ret tt) ;;;
    sleep waitForUpDelay ;;;
    ret (Continue lastWarn').

Definition WaitForPeersUp (fuel : nat) (w : World) : option (Outcome unit * World) :=
  if Z.of_nat (List.length (Peers (discoverer (gsp w)) (clock w))) =? 0
  then Some (emit (EvLog LevelWarn "No peer detected (dev mode)" None) w)
  else forever fuel (waitTurn (clock w)) 0 w.

(* ----------------------------------------------------------------- *)
(** *** Outbound requests *)

Definition requestGet `{Conf} (ordinal : Z) (baseUrl : string)
  : Go (option Response * option error) :=
  c <- getClientInfo ordinal ;;
  match c with
  | None => ret (None, Some (ErrFmt "No connection to broker %d" ordinal))
  | Some c =>
      g <- self ;;
      t <- now ;;
      let brokers := Brokers (discoverer g) t in
      if Z.of_nat (List.length brokers) <=? ordinal
      then ret (None, Some (ErrFmt "No broker %d obtained" ordinal))
      else
        broker <- liftOutcome (indexAt brokers ordinal) ;;
        match Get (client c) t (getPeerUrl broker baseUrl) with
        | (resp, Some err) => ret (resp, Some err)
        | (None, None) => panic nilDeref
        | (Some r, None) =>
            if negb (StatusCode r =? StatusOK)
            then ret (None, Some (ErrText (StatusText r)))
            else ret (Some r, None)
        end
  end.

Definition requestPost `{Conf} (ordinal : Z) (baseUrl : string) (body : json)
  : Go (option Response * option error) :=
  c <- getClientInfo ordinal ;;
  match c with
  | None => ret (None, Some (ErrFmt "No connection to broker %d" ordinal))
  | Some c =>
      g <- self ;;
      t <- now ;;
      let brokers := Brokers (discoverer g) t in
      if Z.of_nat (List.length brokers) <=? ordinal
      then ret (None, Some (ErrFmt "No broker %d obtained" ordinal))
      else
        broker <- liftOutcome (indexAt brokers ordinal) ;;
        match Post (client c) t (getPeerUrl broker baseUrl) "application/json" body with
        | (resp, Some err) => ret (resp, Some err)
        | (None, None) => panic nilDeref
        | (Some r, None) =>
            if negb (StatusCode r =? StatusOK)
            then ret (None, Some (HttpError (StatusCode r) (StatusText r)))
            else ret (Some r, None)
        end
  end.

Record GenReadResult : Type := {
  Committed : option Generation;
  Proposed : option Generation;
  Error : option error
}.

(** [len(gens) > i && gens[i].Version > 0], then [&gens[i]]. *)
Definition presentAt (gens : slice Generation) (i : nat) : option Generation :=
  match nth_error (elems gens) i with
  | Some gen => if 0 <? Version gen then Some gen else None
  | None => None
  end.

Definition GetGenerations `{GoLib} `{Conf} (ordinal : Z) (token : Token)
  : Go GenReadResult :=
  re <- requestGet ordinal (gossipGenerationUrl (tokenString token)) ;;
  match re with
  | (_, Some err) =>
      ret {| Committed := None; Proposed := None; Error := Some err |}
  | (None, None) => panic nilDeref
  | (Some r, None) =>
      match decodeGenerations (RespBody r) with
      | Err err => ret {| Committed := None; Proposed := None; Error := Some err |}
      | Ok gens =>
          ret {| Committed := presentAt gens 0;
                 Proposed := presentAt gens 1;
                 Error := None |}
      end
  end.

(** [defer r.Body.Close()] right after the request: the method value is
    taken from [r] when the statement runs, whatever [err] is. *)
Definition deferBodyClose (r : option Response) : Go unit :=
  match r with
  | None => panic nilDeref
  | Some _ => ret tt
  end.

(** [json.Marshal] cannot fail on the message (numbers, booleans, a slice of
    numbers and the text of an identifier), so the fatal branch after it is
    not reachable and is left out, here and in [SetAsCommitted]. *)
Definition SetGenerationAsProposed `{GoLib} `{Conf} (ordinal : Z)
  (newGen : option Generation) (expectedTx : option UUID) : Go (option error) :=
  let message := {| MsgGeneration := newGen; MsgExpectedTx := expectedTx |} in
  let jsonBody := marshalProposeMessage message in
  match newGen with
  | None => panic nilDeref
  | Some gen =>
      re <- requestPost ordinal (gossipGenerationProposeUrl (Start gen)) jsonBody ;;
      deferBodyClose (fst re) ;;;
      ret (snd re)
  end.

Definition SetAsCommitted `{GoLib} `{Conf} (ordinal : Z) (token : Token) (tx : UUID)
  : Go (option error) :=
  let jsonBody := marshalUUID tx in
  re <- requestPost ordinal (gossipGenerationProposeUrl token) jsonBody ;;
  deferBodyClose (fst re) ;;;
  ret (snd re).

(* ----------------------------------------------------------------- *)
(** *** Inbound requests *)

(** The [http.ResponseWriter] of a handler: the header it has set, the
    documents it has written, and whether the connection fails the writes
    it is given. *)
Record ResponseRecorder : Type := {
  RecHeader : list (string * string);
  RecBody : list json;
  RecFails : bool
}.

Definition isNil {A : Type} (p : option A) : bool :=
  match p with
  | None => true
  | Some _ => false
  end.

(** [Header().Set(key, value)]: the entries of the key are replaced. *)
Definition headerSet (h : list (string * string)) (key value : string)
  : list (string * string) :=
  filter (fun kv => negb (String.eqb (fst kv) key)) h ++ [(key, value)].

(** [Header().Add(key, value)]: one more entry for the key. *)
Definition headerAdd (h : list (string * string)) (key value : string)
  : list (string * string) :=
  h ++ [(key, value)].

(** [json.NewEncoder(w).Encode(v)]: the document is written, unless the
    write fails; the error of the write is the result. *)
Definition encodeTo (w : ResponseRecorder) (doc : json)
  : ResponseRecorder * option error :=
  if RecFails w
  then (w, Some (ErrText "write failed"))
  else ({| RecHeader := RecHeader w; RecBody := RecBody w ++ [doc];
           RecFails := RecFails w |}, None).

(** The error of [Encode] is not looked at: the handler returns nil once the
    store has answered. *)
Definition getGenHandler `{GoLib} (w : ResponseRecorder) (tokenParam : string)
  : Go (ResponseRecorder * option error) :=
  match parseInt64 tokenParam with
  | None => ret (w, Some (ErrParse "strconv.ParseInt"))
  | Some token =>
      g <- self ;;
      match localDb g with
      | None => panic nilDeref
      | Some db =>
          match GetGenerationsByToken db token with
          | Ok result =>
              let w1 := {| RecHeader := headerSet (RecHeader w)
                                          "Content-Type" "application/json";
                           RecBody := RecBody w;
                           RecFails := RecFails w |} in
              ret (fst (encodeTo w1 (marshalGenerationPtrs result)), None)
          | Err err => ret (w, Some err)
          end
      end
  end.

Definition postGenHandler `{GoLib} (tokenParam : string) (body : Body)
  : Go (option error) :=
  match parseInt64 tokenParam with
  | None => ret (Some (ErrParse "strconv.ParseInt"))
  | Some _ =>
      match decodeGenerationPtrs body with
      | Err err => ret (Some err)
      | Ok gens =>
          if negb (len gens =? 2) || isNil (nth 1 (elems gens) None)
          then ret (Some (HttpError StatusBadRequest "Generations were not provided"))
          else
            g <- self ;;
            match genListener g with
            | None => panic "Generation listener was not registered"
            | Some l =>
                let gen0 := nth 0 (elems gens) None in
                let gen1 := nth 1 (elems gens) None in
                emit (EvNewRemoteGeneration gen0 gen1) ;;;
                ret (OnNewRemoteGeneration l gen0 gen1)
            end
      end
  end.

Definition postGenAcceptHandler `{GoLib} (tokenParam : string) (body : Body)
  : Go (option error) :=
  match parseInt64 tokenParam with
  | None => ret (Some (ErrParse "strconv.ParseInt"))
  | Some _ =>
      match decodeGeneration body with
      | Err err => ret (Some err)
      | Ok gen =>
          g <- self ;;
          match genListener g with
          | None => panic nilDeref
          | Some l =>
              emit (EvRemoteSetAsAccepted (Some gen)) ;;;
              ret (OnRemoteSetAsAccepted l (Some gen))
          end
      end
  end.

(** An error a handler returns counts as a client error when it carries an
    HTTP status of the 4xx class. *)
Definition isClientError (e : error) : bool :=
  match e with
  | HttpError status _ => (400 <=? status) && (status <? 500)
  | _ => false
  end.

(** The calls of the listener a run has made. *)
Definition listenerCalls (tr : list Event) : list Event :=
  filter (fun e => match e with
                   | EvNewRemoteGeneration _ _ => true
                   | EvRemoteSetAsAccepted _ => true
                   | _ => false
                   end) tr.

(* ================================================================= *)
(** ** The consumer response: binary framing *)

Definition byteOfZ (z : Z) : byte :=
  match Byte.of_N (Z.to_N (z mod 256)) with
  | Some b => b
  | None => x00
  end.

(** The [n] low bytes of [z], least significant first (two's complement for
    a negative [z]). *)
Fixpoint lowBytes (n : nat) (z : Z) : list byte :=
  match n with
  | O => []
  | S n' => byteOfZ z :: lowBytes n' (z / 256)
  end.

(** [order.PutUintN]: a fixed-width integer of [n] bytes. *)
Definition putFixed (order : ByteOrder) (n : nat) (z : Z) : list byte :=
  match order with
  | LittleEndian => lowBytes n z
  | BigEndian => rev (lowBytes n z)
  end.

Definition uint16 (z : Z) : Z := z mod 2 ^ 16.
Definition uint8 (z : Z) : Z := z mod 2 ^ 8.

(** [io.Writer]: the writer after the call and the error of the call. *)
Class Writer (W : Type) : Type :=
  Write : W -> list byte -> W * option error.

(** A writer that keeps what it is given, as [bytes.Buffer] does. *)
#[export] Instance bufferWriter : Writer (list byte) :=
  fun buf p => (buf ++ p, None).

(** A writer that takes [room] more bytes and fails on a write that does not
    fit, as a closed connection would. *)
Record limitedWriter : Type := {
  room : nat;
  taken : list byte
}.

#[export] Instance limitedWriter_Writer : Writer limitedWriter :=
  fun w p =>
    if (List.length p <=? room w)%nat
    then ({| room := room w - List.length p; taken := taken w ++ p |}, None)
    else (w, Some (ErrText "short write")).

(** [binary.Write(w, order, v)] for a fixed-width integer of [n] bytes. *)
Definition binaryWrite {W : Type} `{Writer W} (w : W) (order : ByteOrder)
  (n : nat) (v : Z) : W * option error :=
  Write w (putFixed order n v).

(** Sequencing of writes: the first error ends the function. *)
Definition orReturn {W : Type} (r : W * option error) (k : W -> W * option error)
  : W * option error :=
  match r with
  | (w, Some err) => (w, Some err)
  | (w, None) => k w
  end.

Record SegmentChunk : Type := { DataBlock : list byte }.

Record consumerResponseItem : Type := {
  chunk : SegmentChunk;
  topic : TopicDataId
}.

Definition Marshal {W : Type} `{Writer W} `{Conf} (i : consumerResponseItem) (w : W)
  : W * option error :=
  orReturn (binaryWrite w Endianness 8 (TToken (topic i))) (fun w =>
  orReturn (binaryWrite w Endianness 2 (GenId (topic i))) (fun w =>
  orReturn (binaryWrite w Endianness 1
              (uint8 (Z.of_nat (String.length (Name (topic i)))))) (fun w =>
  orReturn (Write w (list_byte_of_string (Name (topic i)))) (fun w =>
  orReturn (Write w (DataBlock (chunk i))) (fun w =>
  (w, None)))))).

Fixpoint marshalItems {W : Type} `{Writer W} `{Conf}
  (items : list consumerResponseItem) (w : W) : W * option error :=
  match items with
  | [] => (w, None)
  | item :: rest => orReturn (Marshal item w) (marshalItems rest)
  end.

(** The [http.ResponseWriter] of the consumer response: its header map and
    the connection it writes to. *)
Record ResponseWriter (W : Type) : Type := {
  Header : list (string * string);
  Conn : W
}.
Arguments Header {W} r.
Arguments Conn {W} r.

Definition marshalResponse {W : Type} `{Writer W} `{Conf}
  (w : ResponseWriter W) (responseItems : list consumerResponseItem)
  : ResponseWriter W * option error :=
  let hdr := headerAdd (Header w) "Content-Type" contentType in
  let (c, err) :=
    orReturn (binaryWrite (Conn w) Endianness 2
                (uint16 (Z.of_nat (List.length responseItems))))
             (marshalItems responseItems) in
  ({| Header := hdr; Conn := c |}, err).

(** The payload as the interface description words it: a 2-byte item count,
    then per item the token (8 bytes), the generation id (2 bytes), a 1-byte
    name length, the name bytes and the raw data block. *)
Definition framedItem (order : ByteOrder) (i : consumerResponseItem) : list byte :=
  putFixed order 8 (TToken (topic i))
  ++ putFixed order 2 (GenId (topic i))
  ++ putFixed order 1 (uint8 (Z.of_nat (String.length (Name (topic i)))))
  ++ list_byte_of_string (Name (topic i))
  ++ DataBlock (chunk i).

Definition framedPayload (order : ByteOrder) (items : list consumerResponseItem)
  : list byte :=
  putFixed order 2 (uint16 (Z.of_nat (List.length items)))
  ++ flat_map (framedItem order) items.

(** The number a fixed-width field stands for, read back in its byte
    order. *)
Fixpoint lowValue (bs : list byte) : Z :=
  match bs with
  | [] => 0
  | b :: rest => Z.of_N (Byte.to_N b) + 256 * lowValue rest
  end.

Definition fixedValue (order : ByteOrder) (bs : list byte) : Z :=
  match order with
  | LittleEndian => lowValue bs
  | BigEndian => lowValue (rev bs)
  end.

(* ================================================================= *)
(** ** Notions the statements use *)

(** Whether the connection of a peer exists and reports up at an instant. *)
Definition peerIsUp (g : gossiper) (t : Time) (peer : BrokerInfo) : bool :=
  match connections g t (Ordinal peer) with
  | Some ci => isHostUp ci t
  | None => false
  end.

(** Whether some peer of the discoverer is up at an instant. *)
Definition somePeerUp (g : gossiper) (t : Time) : bool :=
  existsb (peerIsUp g t) (Peers (discoverer g) t).

(** The sleeps of a run, in order. *)
Definition sleepsOf (tr : list Event) : list Time :=
  flat_map (fun e => match e with
                     | EvSleep d => [d]
                     | _ => []
                     end) tr.

(** The instant of the poll number [k] (from 0) of a wait started at
    [start]. *)
Definition pollInstant (start : Time) (k : nat) : Time :=
  start + Z.of_nat k * waitForUpDelay.

(** The first poll at which the whole seconds elapsed exceed those of
    [waitForUpMaxWait]: 3005 polls of 200ms are 601s. *)
Definition fatalTurn : nat := 3005.

(** The world after a run that took [dt] on the clock and left the events
    [tr]. *)
Definition advance (w : World) (dt : Time) (tr : list Event) : World :=
  {| gsp := gsp w; clock := clock w + dt; trace := trace w ++ tr |}.

(** The ways an outbound POST to a peer ends without a response: the peer
    has no connection, the broker list does not reach its ordinal, the
    exchange itself fails, or the peer answers with a status other than
    200. *)
Inductive PostFails (w : World) (ordinal : Z) : Prop :=
| NoConnection :
    connections (gsp w) (clock w) ordinal = None ->
    PostFails w ordinal
| NoBroker (c : clientInfo) :
    connections (gsp w) (clock w) ordinal = Some c ->
    Z.of_nat (List.length (Brokers (discoverer (gsp w)) (clock w))) <= ordinal ->
    PostFails w ordinal
| ExchangeFails (c : clientInfo) (b : BrokerInfo) :
    connections (gsp w) (clock w) ordinal = Some c ->
    indexAt (Brokers (discoverer (gsp w)) (clock w)) ordinal = Returned b ->
    (forall url ctype body,
        exists err, Post (client c) (clock w) url ctype body = (None, Some err)) ->
    PostFails w ordinal
| BadStatus (c : clientInfo) (b : BrokerInfo) :
    connections (gsp w) (clock w) ordinal = Some c ->
    indexAt (Brokers (discoverer (gsp w)) (clock w)) ordinal = Returned b ->
    (forall url ctype body,
        exists r, Post (client c) (clock w) url ctype body = (Some r, None)
                  /\ StatusCode r <> StatusOK) ->
    PostFails w ordinal.

(** A store result that holds no generation: the nil slice, the empty slice,
    or nil slots only. *)
Definition noGenerations (result : slice (option Generation)) : Prop :=
  Forall (fun slot => slot = None) (elems result).

(** The json tags of [Generation]. *)
Definition generationTags : list string :=
  ["start"; "end"; "version"; "timestamp"; "leader"; "followers"; "tx";
   "txLeader"; "status"; "toDelete"]%string.

(** The numbers of a generation fit the 64 bits of their Go types. *)
Definition fitsInt64 (g : Generation) : Prop :=
  inInt64 (Start g) = true /\ inInt64 (End_ g) = true
  /\ inInt64 (Version g) = true /\ inInt64 (Timestamp g) = true
  /\ inInt64 (Leader g) = true /\ inInt64 (TxLeader g) = true
  /\ inInt64 (Status g) = true
  /\ Forall (fun z => inInt64 z = true) (elems (Followers g)).

Definition emptyRecorder : ResponseRecorder :=
  {| RecHeader := []; RecBody := []; RecFails := false |}.

(** The body a peer serves for GET on the generations of a token: the
    document its [getGenHandler] writes, when the handler returns no
    error. *)
Definition servedBody `{GoLib} (peer : World) (tokenParam : string) : Body :=
  match getGenHandler emptyRecorder tokenParam peer with
  | (Returned (rec, None), _) => hd_error (RecBody rec)
  | _ => None
  end.

(** The peer's store answers for the token and holds no generation for
    it. *)
Definition peerHasNoHistory `{GoLib} (peer : World) (tokenParam : string) : Prop :=
  exists db token result,
    localDb (gsp peer) = Some db
    /\ parseInt64 tokenParam = Some token
    /\ GetGenerationsByToken db token = Ok result
    /\ noGenerations result.

(** The two facts about the libraries that the round trips rest on: an
    identifier is parsed back from its text, and among the json tags of
    [Generation] a key matches its own field only. *)
Definition libFaithful `{GoLib} : Prop :=
  (forall u, uuidParse (uuidString u) = Some u)
  /\ (forall a b, In a generationTags -> In b generationTags ->
                  equalFold a b = String.eqb a b).

(** The ways an outbound GET to a peer ends without a response, as
    [PostFails] for a POST. *)
Inductive GetFails (w : World) (ordinal : Z) : Prop :=
| GetNoConnection :
    connections (gsp w) (clock w) ordinal = None ->
    GetFails w ordinal
| GetNoBroker (c : clientInfo) :
    connections (gsp w) (clock w) ordinal = Some c ->
    Z.of_nat (List.length (Brokers (discoverer (gsp w)) (clock w))) <= ordinal ->
    GetFails w ordinal
| GetExchangeFails (c : clientInfo) (b : BrokerInfo) :
    connections (gsp w) (clock w) ordinal = Some c ->
    indexAt (Brokers (discoverer (gsp w)) (clock w)) ordinal = Returned b ->
    (forall url, exists err, Get (client c) (clock w) url = (None, Some err)) ->
    GetFails w ordinal
| GetBadStatus (c : clientInfo) (b : BrokerInfo) :
    connections (gsp w) (clock w) ordinal = Some c ->
    indexAt (Brokers (discoverer (gsp w)) (clock w)) ordinal = Returned b ->
    (forall url, exists r, Get (client c) (clock w) url = (Some r, None)
                           /\ StatusCode r <> StatusOK) ->
    GetFails w ordinal.

(** The fields of an item, in the order [Marshal] writes them. *)
Definition itemChunks (order : ByteOrder) (i : consumerResponseItem)
  : list (list byte) :=
  [ putFixed order 8 (TToken (topic i));
    putFixed order 2 (GenId (topic i));
    putFixed order 1 (uint8 (Z.of_nat (String.length (Name (topic i)))));
    list_byte_of_string (Name (topic i));
    DataBlock (chunk i) ].

(** The writes of a whole response, in order: the count, then the fields of
    each item. *)
Definition payloadChunks (order : ByteOrder) (items : list consumerResponseItem)
  : list (list byte) :=
  putFixed order 2 (uint16 (Z.of_nat (List.length items)))
  :: flat_map (itemChunks order) items.

(** The given writes made one after the other, up to the first that
    fails. *)
Fixpoint writeAll {W : Type} `{Writer W} (w : W) (chunks : list (list byte))
  : W * option error :=
  match chunks with
  | [] => (w, None)
  | c :: rest => orReturn (Write w c) (fun w' => writeAll w' rest)
  end.

Definition sameLevel (a b : LogLevel) : bool :=
  match a, b with
  | LevelInfo, LevelInfo => true
  | LevelWarn, LevelWarn => true
  | LevelFatal, LevelFatal => true
  | _, _ => false
  end.

(** The numbers logged at a level during a run, in order. *)
Definition logsOf (lvl : LogLevel) (tr : list Event) : list Z :=
  flat_map (fun e => match e with
                     | EvLog l _ (Some n) => if sameLevel l lvl then [n] else []
                     | _ => []
                     end) tr.

(** The test of [WaitForPeersUp] for its progress message. *)
Definition warnDue (elapsed lastWarn : Z) : bool :=
  (1 <? elapsed) && (Z.rem elapsed 5 =? 0) && negb (elapsed =? lastWarn).

(** The seconds reported by the progress messages of the polls
    [first .. first + k - 1]: one message at each poll that falls on a
    multiple of five seconds (every 25th poll, from the 25th on). *)
Definition progressLogs (first k : nat) : list Z :=
  flat_map (fun j => if ((j mod 25 =? 0) && (25 <=? j))%nat
                     then [Z.of_nat (j / 5)]
                     else [])
           (seq first k).

(** The value of [lastWarn] when poll [j] begins. *)
Definition lastWarnAt (j : nat) : Z := 5 * Z.of_nat ((j - 1) / 25).

(** The world after the given events, the clock unmoved. *)
Definition withEvents (w : World) (tr : list Event) : World :=
  {| gsp := gsp w; clock := clock w; trace := trace w ++ tr |}.

(* ================================================================= *)
(** ** Sample values, used to run the definitions *)

(** Stand-ins for the library calls: identifiers and tokens are written in
    decimal, and object keys are compared exactly. *)
Definition sampleParseInt (s : string) : option Z :=
  match NilZero.int_of_string s with
  | Some i => if inInt64 (Z.of_int i) then Some (Z.of_int i) else None
  | None => None
  end.

Definition sampleLib : GoLib :=
  {| uuidString := fun u => NilZero.string_of_uint (N.to_uint u);
     uuidParse := fun s => option_map N.of_uint (NilZero.uint_of_string s);
     equalFold := String.eqb;
     parseInt64 := sampleParseInt |}.

Definition sampleConf : Conf :=
  {| gossipGenerationUrl := fun s => ("/v1/generation/" ++ s)%string;
     gossipGenerationProposeUrl := fun _ => "/v1/generation/propose"%string;
     getPeerUrl := fun b path => ("http://" ++ HostName b ++ path)%string;
     tokenString := fun _ => "0"%string;
     Endianness := BigEndian;
     contentType := "application/octet-stream"%string |}.

Definition sampleListener : GenListener :=
  {| OnRemoteSetAsProposed := fun _ _ => None;
     OnRemoteSetAsCommitted := fun _ _ => None;
     OnNewRemoteGeneration := fun _ _ => None;
     OnRemoteSetAsAccepted := fun _ => None |}.

Definition otherListener : GenListener :=
  {| OnRemoteSetAsProposed := fun _ _ => Some (ErrOther 1);
     OnRemoteSetAsCommitted := fun _ _ => Some (ErrOther 1);
     OnNewRemoteGeneration := fun _ _ => Some (ErrOther 1);
     OnRemoteSetAsAccepted := fun _ => Some (ErrOther 1) |}.

Definition broker (ordinal : Z) : BrokerInfo :=
  {| IsSelf := false; Ordinal := ordinal; HostName := "broker"%string |}.

(** A node that knows no peer. *)
Definition loneDiscoverer : Discoverer :=
  {| Peers := fun _ => []; Brokers := fun _ => [broker 0] |}.

(** A node of a cluster of three; it is broker 0. *)
Definition trioDiscoverer : Discoverer :=
  {| Peers := fun _ => [broker 1; broker 2];
     Brokers := fun _ => [broker 0; broker 1; broker 2] |}.

Definition freshWorld (d : Discoverer) : World :=
  {| gsp := NewGossiper d; clock := 0; trace := [] |}.

Definition worldWithListener (l : GenListener) : World :=
  {| gsp := {| discoverer := trioDiscoverer; localDb := None;
               genListener := Some l; connections := fun _ _ => None |};
     clock := 0; trace := [] |}.

(** A peer whose store has two empty slots for every token. *)
Definition emptyStore : localdb_Client :=
  {| GetGenerationsByToken := fun _ => Ok (Some [None; None]) |}.

Definition peerWorld : World :=
  {| gsp := {| discoverer := trioDiscoverer; localDb := Some emptyStore;
               genListener := None; connections := fun _ _ => None |};
     clock := 0; trace := [] |}.

(** A connection whose GET is answered 200 with the given document and whose
    host reports up from the given instant on. *)
Definition connectionAnswering (doc : json) (upFrom : Time) : clientInfo :=
  {| client :=
       {| Get := fun _ _ =>
                   (Some {| StatusCode := 200; StatusText := "200 OK";
                            RespBody := Some doc |}, None);
          Post := fun _ _ _ _ => (None, Some (ErrOther 0)) |};
     isHostUp := fun t => upFrom <=? t |}.

(** Broker 0 of the trio, connected to broker 1 only. *)
Definition connectedWorld (doc : json) (upFrom : Time) : World :=
  {| gsp := {| discoverer := trioDiscoverer; localDb := None;
               genListener := None;
               connections := fun _ ordinal =>
                                if ordinal =? 1
                                then Some (connectionAnswering doc upFrom)
                                else None |};
     clock := 0; trace := [] |}.

(** The instant 600.2s: past the ten minutes of [waitForUpMaxWait]. *)
Definition lateInstant : Time := 600 * Second + 200 * Millisecond.

(** A generation as a leader would propose it. *)
Definition sampleGeneration : Generation :=
  {| Start := 0; End_ := 100; Version := 1; Timestamp := 1700000000;
     Leader := 2; Followers := Some [3]; Tx := 77%N; TxLeader := 2;
     Status := StatusProposed; ToDelete := false |}.

(** A peer whose store answers every token with the given slots. *)
Definition peerHolding (result : slice (option Generation)) : World :=
  {| gsp := {| discoverer := trioDiscoverer;
               localDb := Some {| GetGenerationsByToken := fun _ => Ok result |};
               genListener := None; connections := fun _ _ => None |};
     clock := 0; trace := [] |}.

(** A discoverer that reports broker 1 at instant 0 and no peer later. *)
Definition vanishingDiscoverer : Discoverer :=
  {| Peers := fun t => if t =? 0 then [broker 1] else [];
     Brokers := fun _ => [broker 0; broker 1] |}.

(* ================================================================= *)
(** ** Status names *)

Lemma indexAt_outside {A : Type} (l : list A) (i : Z) :
  i < 0 \/ Z.of_nat (List.length l) <= i -> indexAt l i = Panicked indexOutOfRange.
Proof.
  intros Hout. unfold indexAt.
  destruct (Z.ltb_spec i 0) as [Hneg | Hpos]; [reflexivity |].
  destruct Hout as [Hneg | Hbig]; [lia |].
  assert (Hnone : nth_error l (Z.to_nat i) = None)
    by (apply nth_error_None; lia).
  now rewrite Hnone.
Qed.

(** C10. [GenStatus.String()] returns "Cancelled", "Proposed", "Accepted" and
    "Committed" for the status values 0, 1, 2 and 3, and for every status
    value outside 0..3 the array lookup is out of bounds: the call panics. *)
Theorem GenStatus_String_total_on_declared_only :
  GenStatus_String StatusCancelled = Returned "Cancelled"%string
  /\ GenStatus_String StatusProposed = Returned "Proposed"%string
  /\ GenStatus_String StatusAccepted = Returned "Accepted"%string
  /\ GenStatus_String StatusCommitted = Returned "Committed"%string
  /\ (forall s : GenStatus,
        s < 0 \/ 3 < s -> GenStatus_String s = Panicked indexOutOfRange).
Proof.
  repeat split; try reflexivity.
  intros s Hs. unfold GenStatus_String.
  apply indexAt_outside. simpl. lia.
Qed.

Lemma GenStatus_String_undeclared_panics :
  GenStatus_String 4 = Panicked indexOutOfRange
  /\ GenStatus_String (-1) = Panicked indexOutOfRange.
Proof.
  split;
    apply (proj2 (proj2 (proj2 (proj2 GenStatus_String_total_on_declared_only))));
    lia.
Defined.

(* ================================================================= *)
(** ** TopicDataId *)

(** C8. The [TopicDataId] record of the types package is made of three
    components only, the stream name, the token and the gen id: two ids with
    the same three components are equal, and every triple is the components
    of an id.  The record has no range sub-index. *)
Theorem TopicDataId_is_three_components :
  (forall a b : TopicDataId,
      TopicDataId_components a = TopicDataId_components b -> a = b)
  /\ (forall (name : string) (token : Token) (genId : Z),
        TopicDataId_components {| Name := name; TToken := token; GenId := genId |}
        = (name, token, genId)).
Proof.
  split.
  - intros [n1 t1 g1] [n2 t2 g2] Heq.
    unfold TopicDataId_components in Heq. simpl in Heq.
    now inversion Heq.
  - intros. reflexivity.
Qed.

Lemma TopicDataId_same_components_same_id :
  {| Name := "orders"; TToken := 7; GenId := 1 |}
  = {| Name := "orders"; TToken := 7; GenId := 1 |}.
Proof.
  apply (proj1 TopicDataId_is_three_components). reflexivity.
Defined.

(* ================================================================= *)
(** ** Listener registration *)

(** C3. Registering a listener on a gossiper that has none returns and binds
    it; on a gossiper that already has a listener the call panics with
    "Listener registered multiple times" and leaves the gossiper as it was,
    so the first listener stays bound. *)
Theorem RegisterGenListener_first_wins (w : World) (l : GenListener) :
  (genListener (gsp w) = None ->
   exists w',
     RegisterGenListener (Some l) w = (Returned tt, w')
     /\ genListener (gsp w') = Some l
     /\ clock w' = clock w /\ trace w' = trace w)
  /\ (forall first : GenListener,
        genListener (gsp w) = Some first ->
        RegisterGenListener (Some l) w
        = (Panicked "Listener registered multiple times", w)
        /\ genListener (gsp w) = Some first).
Proof.
  split.
  - intros Hnone. unfold RegisterGenListener, bind, self.
    rewrite Hnone. eexists. split; [reflexivity |]. simpl. auto.
  - intros first Hsome. unfold RegisterGenListener, bind, self.
    rewrite Hsome. split; reflexivity || assumption.
Qed.

Lemma RegisterGenListener_twice_panics :
  (exists w',
     RegisterGenListener (Some sampleListener) (freshWorld trioDiscoverer)
     = (Returned tt, w')
     /\ genListener (gsp w') = Some sampleListener
     /\ clock w' = 0 /\ trace w' = [])
  /\ RegisterGenListener (Some otherListener) (worldWithListener sampleListener)
     = (Panicked "Listener registered multiple times",
        worldWithListener sampleListener).
Proof.
  split.
  - apply (proj1 (RegisterGenListener_first_wins (freshWorld trioDiscoverer)
                    sampleListener)).
    reflexivity.
  - apply (proj2 (RegisterGenListener_first_wins (worldWithListener sampleListener)
                    otherListener) sampleListener).
    reflexivity.
Defined.

(* ================================================================= *)
(** ** The startup barrier without peers *)

(** C9. When the discoverer's peer list is empty, [WaitForPeersUp] returns at
    once, whatever the number of loop turns allowed: the only effect is one
    warning in the log; no peer is polled, the clock does not move (no
    sleep), and the process is not ended. *)
Theorem WaitForPeersUp_without_peers (fuel : nat) (w : World) :
  Peers (discoverer (gsp w)) (clock w) = [] ->
  WaitForPeersUp fuel w
  = Some (Returned tt,
          {| gsp := gsp w; clock := clock w;
             trace := trace w ++ [EvLog LevelWarn "No peer detected (dev mode)" None] |}).
Proof.
  intros Hnone. unfold WaitForPeersUp. rewrite Hnone. reflexivity.
Qed.

Lemma WaitForPeersUp_lone_node :
  WaitForPeersUp 0 (freshWorld loneDiscoverer)
  = Some (Returned tt,
          {| gsp := NewGossiper loneDiscoverer; clock := 0;
             trace := [EvLog LevelWarn "No peer detected (dev mode)" None] |}).
Proof.
  apply (WaitForPeersUp_without_peers 0 (freshWorld loneDiscoverer)).
  reflexivity.
Defined.

(* ================================================================= *)
(** ** Outbound calls when the peer gives no response *)

Lemma requestPost_without_response `{Conf} (w : World) (ordinal : Z)
  (url : string) (body : json) :
  PostFails w ordinal ->
  exists err, requestPost ordinal url body w = (Returned (None, Some err), w).
Proof.
  intros Hfails. unfold requestPost, bind, getClientInfo, self, now, ret, liftOutcome.
  destruct Hfails as [Hnone | c Hc Hlen | c b Hc Hb Hpost | c b Hc Hb Hpost].
  - rewrite Hnone. eexists. reflexivity.
  - rewrite Hc.
    destruct (Z.leb_spec
                (Z.of_nat (List.length (Brokers (discoverer (gsp w)) (clock w))))
                ordinal) as [_ | Hlt]; [| lia].
    eexists. reflexivity.
  - rewrite Hc.
    destruct (Z.of_nat (List.length (Brokers (discoverer (gsp w)) (clock w)))
              <=? ordinal); [eexists; reflexivity |].
    rewrite Hb.
    destruct (Hpost (getPeerUrl b url) "application/json"%string body) as [err Herr].
    rewrite Herr. eexists. reflexivity.
  - rewrite Hc.
    destruct (Z.of_nat (List.length (Brokers (discoverer (gsp w)) (clock w)))
              <=? ordinal); [eexists; reflexivity |].
    rewrite Hb.
    destruct (Hpost (getPeerUrl b url) "application/json"%string body)
      as [r [Hr Hstatus]].
    rewrite Hr.
    destruct (Z.eqb_spec (StatusCode r) StatusOK) as [Heq | _]; [contradiction |].
    simpl. eexists. reflexivity.
Qed.

(** C2. When the peer has no connection, is not in the broker list, the
    exchange fails or the answer is not 200, [requestPost] hands back a nil
    response with the error; [SetAsCommitted] and [SetGenerationAsProposed]
    then run [defer r.Body.Close()] on that nil response and panic with a nil
    dereference: the error is not returned to the caller.  The world is left
    as it was. *)
Theorem gossip_post_failure_panics `{GoLib} `{Conf} (w : World) (ordinal : Z)
  (token : Token) (tx : UUID) (gen : Generation) (expectedTx : option UUID) :
  PostFails w ordinal ->
  SetAsCommitted ordinal token tx w = (Panicked nilDeref, w)
  /\ SetGenerationAsProposed ordinal (Some gen) expectedTx w = (Panicked nilDeref, w).
Proof.
  intros Hfails. split.
  - unfold SetAsCommitted, bind.
    destruct (requestPost_without_response w ordinal
                (gossipGenerationProposeUrl token) (marshalUUID tx) Hfails)
      as [err Herr].
    rewrite Herr. reflexivity.
  - unfold SetGenerationAsProposed, bind.
    destruct (requestPost_without_response w ordinal
                (gossipGenerationProposeUrl (Start gen))
                (marshalProposeMessage
                   {| MsgGeneration := Some gen; MsgExpectedTx := expectedTx |})
                Hfails)
      as [err Herr].
    rewrite Herr. reflexivity.
Qed.

Lemma gossip_post_to_unconnected_peer_panics :
  @SetAsCommitted sampleLib sampleConf 1 0 7%N (freshWorld trioDiscoverer)
  = (Panicked nilDeref, freshWorld trioDiscoverer)
  /\ @SetGenerationAsProposed sampleLib sampleConf 1 (Some zeroGeneration) None
       (freshWorld trioDiscoverer)
     = (Panicked nilDeref, freshWorld trioDiscoverer).
Proof.
  apply (@gossip_post_failure_panics sampleLib sampleConf).
  apply NoConnection. reflexivity.
Defined.

(* ================================================================= *)
(** ** The proposal handler *)

(** C1. The body that [SetGenerationAsProposed] marshals is a JSON object;
    [postGenHandler] decodes the body into a slice of generations, which a
    JSON object is not.  For every proposal the handler therefore returns an
    error that carries no HTTP status, without calling the listener: the
    proposal is not decoded back. *)
Theorem propose_message_not_decoded_by_postGenHandler `{GoLib}
  (tokenParam : string) (gen : option Generation) (expectedTx : option UUID)
  (w : World) :
  exists err,
    postGenHandler tokenParam
      (Some (marshalProposeMessage
               {| MsgGeneration := gen; MsgExpectedTx := expectedTx |})) w
    = (Returned (Some err), w)
    /\ isClientError err = false.
Proof.
  unfold postGenHandler.
  destruct (parseInt64 tokenParam) as [token |].
  - exists typeError. split; reflexivity.
  - eexists. split; reflexivity.
Qed.

(** A POST whose body decodes to a list that is not exactly two slots with a
    non-nil second one is answered with the 400 error "Generations were not
    provided", whatever listener is registered (or none): the handler
    returns once, the world is unchanged, and no call of the listener is
    made. *)
Lemma postGenHandler_rejects_missing_generations `{GoLib}
  (tokenParam : string) (token : Z) (body : Body)
  (gens : slice (option Generation)) (w : World) :
  parseInt64 tokenParam = Some token ->
  decodeGenerationPtrs body = Ok gens ->
  len gens <> 2 \/ nth 1 (elems gens) None = None ->
  exists err,
    postGenHandler tokenParam body w = (Returned (Some err), w)
    /\ err = HttpError StatusBadRequest "Generations were not provided"
    /\ isClientError err = true
    /\ listenerCalls (trace (snd (postGenHandler tokenParam body w)))
       = listenerCalls (trace w).
Proof.
  intros Hparse Hdec Hshape.
  assert (Hrun : postGenHandler tokenParam body w
                 = (Returned (Some (HttpError StatusBadRequest
                                      "Generations were not provided")), w)).
  { unfold postGenHandler. rewrite Hparse, Hdec.
    destruct Hshape as [Hlen | Hnil].
    - destruct (Z.eqb_spec (len gens) 2) as [Heq | _]; [contradiction |].
      reflexivity.
    - rewrite Hnil. rewrite orb_true_r. reflexivity. }
  eexists. rewrite Hrun. repeat split.
Qed.

Lemma postGenHandler_rejects_single_generation :
  exists err,
    @postGenHandler sampleLib "42" (Some (JArr [JObj [("version"%string, JInt 1)]]))
      (worldWithListener sampleListener)
    = (Returned (Some err), worldWithListener sampleListener)
    /\ err = HttpError StatusBadRequest "Generations were not provided"
    /\ isClientError err = true
    /\ listenerCalls
         (trace (snd (@postGenHandler sampleLib "42"
                        (Some (JArr [JObj [("version"%string, JInt 1)]]))
                        (worldWithListener sampleListener))))
       = listenerCalls (trace (worldWithListener sampleListener)).
Proof.
  apply (@postGenHandler_rejects_missing_generations sampleLib "42" 42
           (Some (JArr [JObj [("version"%string, JInt 1)]]))
           (Some [Some (withVersion zeroGeneration 1)])
           (worldWithListener sampleListener)).
  - reflexivity.
  - reflexivity.
  - left. unfold len. simpl. lia.
Defined.

Lemma postGenHandler_undecodable `{GoLib} (tokenParam : string) (body : Body)
  (err : error) (w : World) :
  decodeGenerationPtrs body = Err err ->
  exists e, postGenHandler tokenParam body w = (Returned (Some e), w).
Proof.
  intros Hdec. unfold postGenHandler.
  destruct (parseInt64 tokenParam); rewrite ?Hdec; eexists; reflexivity.
Qed.

Lemma postGenHandler_forwards_pair `{GoLib} (tokenParam : string) (token : Z)
  (body : Body) (existing : option Generation) (new : Generation)
  (l : GenListener) (w : World) :
  parseInt64 tokenParam = Some token ->
  decodeGenerationPtrs body = Ok (Some [existing; Some new]) ->
  genListener (gsp w) = Some l ->
  postGenHandler tokenParam body w
  = (Returned (OnNewRemoteGeneration l existing (Some new)),
     {| gsp := gsp w; clock := clock w;
        trace := trace w ++ [EvNewRemoteGeneration existing (Some new)] |}).
Proof.
  intros Hparse Hdec Hl. unfold postGenHandler.
  rewrite Hparse, Hdec. simpl.
  unfold bind, self. rewrite Hl. reflexivity.
Qed.

(* ----------------------------------------------------------------- *)
(** *** The errors of the decoder carry no HTTP status *)















(* ================================================================= *)
(** ** The consumer response *)

Lemma lowBytes_length (n : nat) (z : Z) : List.length (lowBytes n z) = n.
Proof.
  revert z. induction n as [| n IH]; intros z; simpl; [reflexivity |].
  now rewrite IH.
Qed.

Lemma putFixed_length (order : ByteOrder) (n : nat) (z : Z) :
  List.length (putFixed order n z) = n.
Proof.
  destruct order; simpl; rewrite ?length_rev; apply lowBytes_length.
Qed.

Lemma byteOfZ_value (z : Z) : Z.of_N (Byte.to_N (byteOfZ z)) = z mod 256.
Proof.
  unfold byteOfZ.
  assert (Hrange : 0 <= z mod 256 < 256) by (apply Z.mod_pos_bound; lia).
  destruct (Byte.of_N (Z.to_N (z mod 256))) as [b |] eqn:Hb.
  - apply Byte.to_of_N in Hb. rewrite Hb. lia.
  - apply Byte.of_N_None_iff in Hb. lia.
Qed.

Lemma lowValue_lowBytes (n : nat) (z : Z) :
  lowValue (lowBytes n z) = z mod 256 ^ Z.of_nat n.
Proof.
  revert z. induction n as [| n IH]; intros z.
  - simpl. now rewrite Z.mod_1_r.
  - cbn [lowBytes lowValue]. rewrite byteOfZ_value, IH.
    replace (256 ^ Z.of_nat (S n)) with (256 * 256 ^ Z.of_nat n)
      by (rewrite Nat2Z.inj_succ, Z.pow_succ_r; lia).
    rewrite Z.rem_mul_r by lia. reflexivity.
Qed.

Lemma fixedValue_putFixed (order : ByteOrder) (n : nat) (z : Z) :
  fixedValue order (putFixed order n z) = z mod 256 ^ Z.of_nat n.
Proof.
  destruct order; simpl; rewrite ?rev_involutive; apply lowValue_lowBytes.
Qed.

Lemma Marshal_into_buffer `{Conf} (i : consumerResponseItem) (buf : list byte) :
  Marshal i buf = (buf ++ framedItem Endianness i, None).
Proof.
  unfold Marshal, binaryWrite, Write, bufferWriter, orReturn, framedItem.
  now rewrite <- !app_assoc.
Qed.

Lemma marshalItems_into_buffer `{Conf} (items : list consumerResponseItem)
  (buf : list byte) :
  marshalItems items buf = (buf ++ flat_map (framedItem Endianness) items, None).
Proof.
  revert buf. induction items as [| i items IH]; intros buf; cbn [marshalItems flat_map].
  - now rewrite app_nil_r.
  - rewrite Marshal_into_buffer. unfold orReturn.
    rewrite IH. now rewrite <- app_assoc.
Qed.

(** C6. For every list of response items, what [marshalResponse] writes to a
    connection that takes every write is the framed payload: a 2-byte item
    count, then per item the 8-byte token, the 2-byte generation id, one
    byte of name length, the name bytes and the raw data block, every
    integer in the one byte order [conf.Endianness].  The count field reads
    back as the number of items modulo 2^16. *)
Theorem marshalResponse_writes_framed_payload `{Conf}
  (hdr : list (string * string)) (buf : list byte)
  (items : list consumerResponseItem) :
  marshalResponse {| Header := hdr; Conn := buf |} items
  = ({| Header := headerAdd hdr "Content-Type" contentType;
        Conn := buf ++ framedPayload Endianness items |}, None)
  /\ (exists count body,
        framedPayload Endianness items = count ++ body
        /\ List.length count = 2%nat
        /\ fixedValue Endianness count = Z.of_nat (List.length items) mod 2 ^ 16
        /\ body = flat_map (framedItem Endianness) items)
  /\ (forall i, In i items ->
        exists token gen nameLen,
          framedItem Endianness i
          = token ++ gen ++ nameLen
            ++ list_byte_of_string (Name (topic i)) ++ DataBlock (chunk i)
          /\ List.length token = 8%nat
          /\ fixedValue Endianness token = TToken (topic i) mod 2 ^ 64
          /\ List.length gen = 2%nat
          /\ fixedValue Endianness gen = GenId (topic i) mod 2 ^ 16
          /\ List.length nameLen = 1%nat
          /\ fixedValue Endianness nameLen
             = Z.of_nat (String.length (Name (topic i))) mod 2 ^ 8).
Proof.
  split; [| split].
  - unfold marshalResponse, binaryWrite, Write, bufferWriter. simpl.
    rewrite marshalItems_into_buffer. unfold framedPayload.
    now rewrite <- app_assoc.
  - eexists. eexists. split; [reflexivity |].
    split; [apply putFixed_length |].
    split; [| reflexivity].
    rewrite fixedValue_putFixed. unfold uint16.
    change (256 ^ Z.of_nat 2) with (2 ^ 16).
    now rewrite Z.mod_mod by lia.
  - intros i _. do 3 eexists. split; [reflexivity |].
    repeat split; try apply putFixed_length.
    + now rewrite fixedValue_putFixed.
    + now rewrite fixedValue_putFixed.
    + rewrite fixedValue_putFixed. unfold uint8.
      change (256 ^ Z.of_nat 1) with (2 ^ 8).
      now rewrite Z.mod_mod by lia.
Qed.

(* ================================================================= *)
(** ** Reading the generations of a peer *)

Lemma unmarshal_all_null `{GoLib} (l : list json) :
  Forall (fun j => j = JNull) l ->
  mapResult (fun e => unmarshalGeneration e zeroGeneration) l
  = Ok (map (fun _ => zeroGeneration) l).
Proof.
  induction 1 as [| j l Hj _ IH]; simpl; [reflexivity |].
  subst j. simpl. now rewrite IH.
Qed.

Lemma presentAt_zero_slots (l : list json) (i : nat) :
  presentAt (Some (map (fun _ => zeroGeneration) l)) i = None.
Proof.
  unfold presentAt. simpl. rewrite nth_error_map.
  now destruct (nth_error l i).
Qed.

Lemma presentAt_positive (gens : slice Generation) (i : nat) (gen : Generation) :
  presentAt gens i = Some gen -> 0 < Version gen.
Proof.
  unfold presentAt. destruct (nth_error (elems gens) i) as [x |]; [| discriminate].
  destruct (Z.ltb_spec 0 (Version x)) as [Hpos | _]; [| discriminate].
  intros Heq. now inversion Heq; subst.
Qed.

Lemma marshal_noGenerations `{GoLib} (result : slice (option Generation)) :
  noGenerations result ->
  marshalGenerationPtrs result = JNull
  \/ exists l, marshalGenerationPtrs result = JArr l /\ Forall (fun j => j = JNull) l.
Proof.
  unfold noGenerations. destruct result as [slots |]; simpl; [| now left].
  intros Hall. right. eexists. split; [reflexivity |].
  induction Hall as [| slot slots Hslot _ IH]; simpl; constructor; auto.
  now subst slot.
Qed.

Lemma servedBody_of_store `{GoLib} (peer : World) (tokenParam : string)
  (db : localdb_Client) (token : Z) (result : slice (option Generation)) :
  localDb (gsp peer) = Some db ->
  parseInt64 tokenParam = Some token ->
  GetGenerationsByToken db token = Ok result ->
  servedBody peer tokenParam = Some (marshalGenerationPtrs result).
Proof.
  intros Hdb Hparse Hget.
  unfold servedBody, getGenHandler. rewrite Hparse.
  unfold bind, self. rewrite Hdb, Hget. reflexivity.
Qed.

(** C4. When the peer's store holds no generation for the token and the GET
    exchange succeeds with the body the peer's handler wrote,
    [GetGenerations] returns Committed = nil, Proposed = nil and no error.
    In every result of [GetGenerations], a slot that is present holds a
    generation whose Version is greater than 0. *)
Theorem GetGenerations_without_history `{GoLib} `{Conf}
  (w : World) (ordinal : Z) (token : Token) :
  (forall (peer : World) (tokenParam : string) (r : Response) (w' : World),
      peerHasNoHistory peer tokenParam ->
      requestGet ordinal (gossipGenerationUrl (tokenString token)) w
      = (Returned (Some r, None), w') ->
      RespBody r = servedBody peer tokenParam ->
      GetGenerations ordinal token w
      = (Returned {| Committed := None; Proposed := None; Error := None |}, w'))
  /\ (forall (res : GenReadResult) (w' : World),
        GetGenerations ordinal token w = (Returned res, w') ->
        (forall c, Committed res = Some c -> 0 < Version c)
        /\ (forall p, Proposed res = Some p -> 0 < Version p)).
Proof.
  split.
  - intros peer tokenParam r w' (db & tk & result & Hdb & Hparse & Hget & Hnone)
           Hreq Hbody.
    rewrite (servedBody_of_store peer tokenParam db tk result Hdb Hparse Hget)
      in Hbody.
    unfold GetGenerations, bind. rewrite Hreq. unfold ret.
    rewrite Hbody.
    destruct (marshal_noGenerations result Hnone) as [Hnull | [l [Harr Hall]]].
    + rewrite Hnull. reflexivity.
    + rewrite Harr. unfold decodeGenerations.
      rewrite (unmarshal_all_null l Hall). unfold mapOk.
      now rewrite !presentAt_zero_slots.
  - intros res w' Hrun. unfold GetGenerations, bind in Hrun.
    destruct (requestGet ordinal (gossipGenerationUrl (tokenString token)) w)
      as [[[resp err] | msg | code] w1]; try discriminate.
    destruct err as [err |].
    + destruct resp; inversion Hrun; subst; simpl; split; intros x Hx;
        discriminate Hx.
    + destruct resp as [r |]; [| discriminate].
      destruct (decodeGenerations (RespBody r)) as [gens | e].
      * inversion Hrun; subst. simpl.
        split; intros x Hx; eapply presentAt_positive; eauto.
      * inversion Hrun; subst. simpl. split; intros x Hx; discriminate Hx.
Qed.

Lemma GetGenerations_from_empty_peer :
  @GetGenerations sampleLib sampleConf 1 0 (connectedWorld (JArr [JNull; JNull]) 0)
  = (Returned {| Committed := None; Proposed := None; Error := None |},
     connectedWorld (JArr [JNull; JNull]) 0).
Proof.
  apply (proj1 (@GetGenerations_without_history sampleLib sampleConf
                  (connectedWorld (JArr [JNull; JNull]) 0) 1 0)
           peerWorld "0"%string
           {| StatusCode := 200; StatusText := "200 OK";
              RespBody := Some (JArr [JNull; JNull]) |}).
  - exists emptyStore, 0, (Some [None; None]).
    repeat split; try reflexivity.
    unfold noGenerations. simpl. repeat constructor.
  - reflexivity.
  - reflexivity.
Defined.

(* ================================================================= *)
(** ** The startup barrier with peers *)

Lemma sleepsOf_app (a b : list Event) : sleepsOf (a ++ b) = sleepsOf a ++ sleepsOf b.
Proof. unfold sleepsOf. apply flat_map_app. Qed.

Lemma advance_zero (w : World) : advance w 0 [] = w.
Proof.
  destruct w as [g t tr]. unfold advance. simpl.
  now rewrite Z.add_0_r, app_nil_r.
Qed.

Lemma advance_advance (w : World) (d1 d2 : Time) (tr1 tr2 : list Event) :
  advance (advance w d1 tr1) d2 tr2 = advance w (d1 + d2) (tr1 ++ tr2).
Proof.
  unfold advance. simpl. now rewrite Z.add_assoc, app_assoc.
Qed.

Lemma anyPeerUp_run (peers : list BrokerInfo) (w : World) :
  exists tr,
    anyPeerUp peers w
    = (Returned (existsb (peerIsUp (gsp w) (clock w)) peers), advance w 0 tr)
    /\ sleepsOf tr = [].
Proof.
  revert w. induction peers as [| peer rest IH]; intros w.
  - exists []. split; [| reflexivity].
    simpl. unfold ret. now rewrite advance_zero.
  - cbn [anyPeerUp existsb]. unfold bind, getClientInfo, now, emit.
    change (match connections (gsp w) (clock w) (Ordinal peer) with
            | Some ci => isHostUp ci (clock w)
            | None => false
            end) with (peerIsUp (gsp w) (clock w) peer).
    destruct (peerIsUp (gsp w) (clock w) peer).
    + exists [EvPoll (clock w) (Ordinal peer) true]. split; [| reflexivity].
      unfold advance, ret. simpl. now rewrite Z.add_0_r.
    + match goal with
      | |- context [anyPeerUp rest ?w1] => destruct (IH w1) as [tr [Hrun Hsl]]
      end.
      rewrite Hrun. simpl.
      exists (EvPoll (clock w) (Ordinal peer) false :: tr). split.
      * unfold advance. simpl. now rewrite <- app_assoc.
      * simpl. exact Hsl.
Qed.

Lemma wholeSeconds_ceiling : wholeSeconds waitForUpMaxWait = 600.
Proof. reflexivity. Qed.

Lemma waitTurn_break (start : Time) (lastWarn : Z) (w : World) :
  somePeerUp (gsp w) (clock w) = true ->
  exists tr,
    waitTurn start lastWarn w = (Returned Break, advance w 0 tr)
    /\ sleepsOf tr = [].
Proof.
  intros Hup. unfold waitTurn, bind, self, now.
  destruct (anyPeerUp_run (Peers (discoverer (gsp w)) (clock w)) w)
    as [tr [Hrun Hsl]].
  rewrite Hrun. fold (somePeerUp (gsp w) (clock w)). rewrite Hup.
  exists tr. split; [reflexivity | exact Hsl].
Qed.

Lemma waitTurn_continue (start : Time) (lastWarn : Z) (w : World) :
  somePeerUp (gsp w) (clock w) = false ->
  wholeSeconds (clock w - start) <= 600 ->
  exists lastWarn' tr,
    waitTurn start lastWarn w
    = (Returned (Continue lastWarn'), advance w waitForUpDelay tr)
    /\ sleepsOf tr = [waitForUpDelay].
Proof.
  intros Hup Hbelow. unfold waitTurn, bind, self, now.
  destruct (anyPeerUp_run (Peers (discoverer (gsp w)) (clock w)) w)
    as [tr [Hrun Hsl]].
  rewrite Hrun. fold (somePeerUp (gsp w) (clock w)). rewrite Hup.
  cbn [advance clock gsp trace]. rewrite Z.add_0_r.
  rewrite wholeSeconds_ceiling.
  destruct (Z.ltb_spec 600 (wholeSeconds (clock w - start))) as [Habove | _];
    [lia |].
  destruct ((1 <? wholeSeconds (clock w - start))
            && (Z.rem (wholeSeconds (clock w - start)) 5 =? 0)
            && negb (wholeSeconds (clock w - start) =? lastWarn)).
  - eexists. eexists. split.
    + unfold emit, ret, sleep, advance. cbn.
      rewrite ?Z.add_0_r, <- ?app_assoc. reflexivity.
    + rewrite !sleepsOf_app, Hsl. reflexivity.
  - eexists. eexists. split.
    + unfold emit, ret, sleep, advance. cbn.
      rewrite ?Z.add_0_r, <- ?app_assoc. reflexivity.
    + rewrite !sleepsOf_app, Hsl. reflexivity.
Qed.

Lemma waitTurn_fatal (start : Time) (lastWarn : Z) (w : World) :
  somePeerUp (gsp w) (clock w) = false ->
  600 < wholeSeconds (clock w - start) ->
  exists tr,
    waitTurn start lastWarn w = (Exited 1, advance w 0 tr)
    /\ sleepsOf tr = [].
Proof.
  intros Hup Habove. unfold waitTurn, bind, self, now.
  destruct (anyPeerUp_run (Peers (discoverer (gsp w)) (clock w)) w)
    as [tr [Hrun Hsl]].
  rewrite Hrun. fold (somePeerUp (gsp w) (clock w)). rewrite Hup.
  cbn [advance clock gsp trace]. rewrite Z.add_0_r.
  rewrite wholeSeconds_ceiling.
  destruct (Z.ltb_spec 600 (wholeSeconds (clock w - start))) as [_ | Hbelow];
    [| lia].
  destruct ((1 <? wholeSeconds (clock w - start))
            && (Z.rem (wholeSeconds (clock w - start)) 5 =? 0)
            && negb (wholeSeconds (clock w - start) =? lastWarn)).
  - eexists. split.
    + unfold logFatal, emit, ret, exit, bind, advance. cbn.
      rewrite ?Z.add_0_r, <- ?app_assoc. reflexivity.
    + rewrite !sleepsOf_app, Hsl. reflexivity.
  - eexists. split.
    + unfold logFatal, emit, ret, exit, bind, advance. cbn.
      rewrite ?Z.add_0_r, <- ?app_assoc. reflexivity.
    + rewrite !sleepsOf_app, Hsl. reflexivity.
Qed.

Lemma pollInstant_next (t : Time) (j : nat) :
  pollInstant (t + waitForUpDelay) j = pollInstant t (S j).
Proof. unfold pollInstant. rewrite Nat2Z.inj_succ. lia. Qed.

(** [k] turns in which no peer is up and the ceiling is not passed: the loop
    goes on, [k] sleeps of [waitForUpDelay] later. *)
Lemma forever_waits (k : nat) :
  forall (fuel : nat) (start : Time) (lastWarn : Z) (w : World),
    (forall j, (j < k)%nat ->
               somePeerUp (gsp w) (pollInstant (clock w) j) = false
               /\ wholeSeconds (pollInstant (clock w) j - start) <= 600) ->
    exists lastWarn' tr,
      forever (k + fuel) (waitTurn start) lastWarn w
      = forever fuel (waitTurn start) lastWarn'
          (advance w (Z.of_nat k * waitForUpDelay) tr)
      /\ sleepsOf tr = repeat waitForUpDelay k.
Proof.
  induction k as [| k IH]; intros fuel start lastWarn w Hquiet.
  - exists lastWarn, []. split; [| reflexivity].
    simpl. now rewrite advance_zero.
  - destruct (Hquiet 0%nat ltac:(lia)) as [Hup Hbelow].
    unfold pollInstant in Hup, Hbelow. simpl in Hup, Hbelow.
    rewrite Z.add_0_r in Hup, Hbelow.
    destruct (waitTurn_continue start lastWarn w Hup Hbelow)
      as [lw1 [tr1 [Hturn Hsl1]]].
    change (S k + fuel)%nat with (S (k + fuel)). cbn [forever].
    rewrite Hturn.
    destruct (IH fuel start lw1 (advance w waitForUpDelay tr1)) as [lw2 [tr2 [Hrest Hsl2]]].
    { intros j Hj. cbn [advance gsp clock].
      rewrite pollInstant_next. apply Hquiet. lia. }
    rewrite Hrest, advance_advance.
    exists lw2, (tr1 ++ tr2). split.
    + f_equal. f_equal. rewrite Nat2Z.inj_succ. lia.
    + rewrite sleepsOf_app, Hsl1, Hsl2. reflexivity.
Qed.

Lemma wholeSeconds_before_fatalTurn (j : nat) :
  (j < fatalTurn)%nat -> wholeSeconds (Z.of_nat j * waitForUpDelay) <= 600.
Proof.
  intros Hj. unfold wholeSeconds, fatalTurn in *.
  assert (Hlt : Z.of_nat j * waitForUpDelay / Second < 601).
  { apply Z.div_lt_upper_bound; [reflexivity |].
    change Second with 1000000000. change waitForUpDelay with 200000000. lia. }
  lia.
Qed.

Lemma wholeSeconds_at_fatalTurn :
  wholeSeconds (Z.of_nat fatalTurn * waitForUpDelay) = 601.
Proof. reflexivity. Qed.

Lemma pollInstant_elapsed (start : Time) (j : nat) :
  pollInstant start j - start = Z.of_nat j * waitForUpDelay.
Proof. unfold pollInstant. lia. Qed.

(** The wait returns at the first poll at which a peer is up, when that poll
    is made (it is at most poll number [fatalTurn]). *)
Lemma barrier_returns (w : World) (fuel k : nat) :
  Peers (discoverer (gsp w)) (clock w) <> [] ->
  (k <= fatalTurn)%nat ->
  (k < fuel)%nat ->
  (forall j, (j < k)%nat -> somePeerUp (gsp w) (pollInstant (clock w) j) = false) ->
  somePeerUp (gsp w) (pollInstant (clock w) k) = true ->
  exists tr,
    WaitForPeersUp fuel w
    = Some (Returned tt, advance w (Z.of_nat k * waitForUpDelay) tr)
    /\ sleepsOf tr = repeat waitForUpDelay k.
Proof.
  intros Hpeers Hk Hfuel Hquiet Hup. unfold WaitForPeersUp.
  destruct (Peers (discoverer (gsp w)) (clock w)) as [| p ps] eqn:Hp;
    [contradiction |].
  cbn [List.length]. rewrite Nat2Z.inj_succ.
  destruct (Z.eqb_spec (Z.succ (Z.of_nat (List.length ps))) 0) as [Hz | _]; [lia |].
  replace fuel with (k + S (fuel - k - 1))%nat by lia.
  destruct (forever_waits k (S (fuel - k - 1)) (clock w) 0 w) as [lw [tr1 [Hrun Hsl1]]].
  { intros j Hj. split; [now apply Hquiet |].
    rewrite pollInstant_elapsed. apply wholeSeconds_before_fatalTurn. lia. }
  rewrite Hrun. cbn [forever].
  destruct (waitTurn_break (clock w) lw (advance w (Z.of_nat k * waitForUpDelay) tr1))
    as [tr2 [Hturn Hsl2]].
  { exact Hup. }
  rewrite Hturn, advance_advance, Z.add_0_r.
  exists (tr1 ++ tr2). split; [reflexivity |].
  rewrite sleepsOf_app, Hsl1, Hsl2. now rewrite app_nil_r.
Qed.

(** The wait ends the process at poll number [fatalTurn] when no peer was up
    at any poll until then. *)
Lemma barrier_exits (w : World) (fuel : nat) :
  Peers (discoverer (gsp w)) (clock w) <> [] ->
  (fatalTurn < fuel)%nat ->
  (forall j, (j <= fatalTurn)%nat ->
             somePeerUp (gsp w) (pollInstant (clock w) j) = false) ->
  exists tr,
    WaitForPeersUp fuel w
    = Some (Exited 1, advance w (Z.of_nat fatalTurn * waitForUpDelay) tr)
    /\ sleepsOf tr = repeat waitForUpDelay fatalTurn.
Proof.
  intros Hpeers Hfuel Hquiet. unfold WaitForPeersUp.
  destruct (Peers (discoverer (gsp w)) (clock w)) as [| p ps] eqn:Hp;
    [contradiction |].
  cbn [List.length]. rewrite Nat2Z.inj_succ.
  destruct (Z.eqb_spec (Z.succ (Z.of_nat (List.length ps))) 0) as [Hz | _]; [lia |].
  replace fuel with (fatalTurn + S (fuel - fatalTurn - 1))%nat by lia.
  destruct (forever_waits fatalTurn (S (fuel - fatalTurn - 1)) (clock w) 0 w)
    as [lw [tr1 [Hrun Hsl1]]].
  { intros j Hj. split; [apply Hquiet; lia |].
    rewrite pollInstant_elapsed. now apply wholeSeconds_before_fatalTurn. }
  rewrite Hrun. cbn [forever].
  destruct (waitTurn_fatal (clock w) lw
              (advance w (Z.of_nat fatalTurn * waitForUpDelay) tr1))
    as [tr2 [Hturn Hsl2]].
  { apply Hquiet. lia. }
  { cbn [advance clock].
    replace (clock w + Z.of_nat fatalTurn * waitForUpDelay - clock w)
      with (Z.of_nat fatalTurn * waitForUpDelay) by lia.
    rewrite wholeSeconds_at_fatalTurn. lia. }
  rewrite Hturn, advance_advance, Z.add_0_r.
  exists (tr1 ++ tr2). split; [reflexivity |].
  rewrite sleepsOf_app, Hsl1, Hsl2. now rewrite app_nil_r.
Qed.

(** Below a bound, either a predicate on numbers never holds or there is a
    first number at which it does. *)
Lemma first_true_or_none (P : nat -> bool) (n : nat) :
  (forall j, (j <= n)%nat -> P j = false)
  \/ (exists k, (k <= n)%nat /\ P k = true /\ forall j, (j < k)%nat -> P j = false).
Proof.
  induction n as [| n IH].
  - destruct (P 0%nat) eqn:H0.
    + right. exists 0%nat. repeat split; [lia | assumption | intros; lia].
    + left. intros j Hj. now replace j with 0%nat by lia.
  - destruct IH as [Hnone | Hsome].
    + destruct (P (S n)) eqn:HS.
      * right. exists (S n). repeat split; [lia | assumption |].
        intros j Hj. apply Hnone. lia.
      * left. intros j Hj.
        destruct (Nat.eq_dec j (S n)) as [-> | Hne]; [assumption |].
        apply Hnone. lia.
    + right. destruct Hsome as [k [Hk [Hup Hbefore]]].
      exists k. repeat split; [lia | assumption | assumption].
Qed.

(** C5 (as amended). With at least one peer reported, [WaitForPeersUp] polls
    the peers at the instants start + k * 200ms, sleeping exactly
    [waitForUpDelay] between two polls, and ends at a poll k <= 3005:
    it returns only at the first poll at which some peer is up, and it ends
    the process (exit code 1, after a fatal log entry) at poll 3005, the
    first at which the elapsed whole seconds (601) exceed the 600 of
    [waitForUpMaxWait], when no peer was up at any poll until then. *)
Theorem WaitForPeersUp_barrier (w : World) (fuel : nat) :
  Peers (discoverer (gsp w)) (clock w) <> [] ->
  (fatalTurn < fuel)%nat ->
  (exists (k : nat) (tr : list Event) (out : Outcome unit),
      (k <= fatalTurn)%nat
      /\ WaitForPeersUp fuel w
         = Some (out, advance w (Z.of_nat k * waitForUpDelay) tr)
      /\ sleepsOf tr = repeat waitForUpDelay k
      /\ (forall j, (j < k)%nat ->
                    somePeerUp (gsp w) (pollInstant (clock w) j) = false)
      /\ ((out = Returned tt
           /\ somePeerUp (gsp w) (pollInstant (clock w) k) = true)
          \/ (out = Exited 1
              /\ k = fatalTurn
              /\ somePeerUp (gsp w) (pollInstant (clock w) k) = false
              /\ wholeSeconds (Z.of_nat k * waitForUpDelay) = 601)))
  /\ ((forall j, (j <= fatalTurn)%nat ->
                 somePeerUp (gsp w) (pollInstant (clock w) j) = false) ->
      exists tr,
        WaitForPeersUp fuel w
        = Some (Exited 1, advance w (Z.of_nat fatalTurn * waitForUpDelay) tr)
        /\ sleepsOf tr = repeat waitForUpDelay fatalTurn)
  /\ (forall k,
        (k <= fatalTurn)%nat ->
        (forall j, (j < k)%nat ->
                   somePeerUp (gsp w) (pollInstant (clock w) j) = false) ->
        somePeerUp (gsp w) (pollInstant (clock w) k) = true ->
        exists tr,
          WaitForPeersUp fuel w
          = Some (Returned tt, advance w (Z.of_nat k * waitForUpDelay) tr)
          /\ sleepsOf tr = repeat waitForUpDelay k).
Proof.
  intros Hpeers Hfuel. split; [| split].
  - destruct (first_true_or_none
                (fun j => somePeerUp (gsp w) (pollInstant (clock w) j)) fatalTurn)
      as [Hnone | [k [Hk [Hup Hbefore]]]].
    + destruct (barrier_exits w fuel Hpeers Hfuel Hnone) as [tr [Hrun Hsl]].
      exists fatalTurn, tr, (Exited 1).
      split; [lia |]. split; [exact Hrun |]. split; [exact Hsl |].
      split; [intros j Hj; apply Hnone; lia |].
      right. repeat split.
      * apply Hnone. lia.
    + destruct (barrier_returns w fuel k Hpeers Hk ltac:(lia) Hbefore Hup)
        as [tr [Hrun Hsl]].
      exists k, tr, (Returned tt).
      split; [exact Hk |]. split; [exact Hrun |]. split; [exact Hsl |].
      split; [exact Hbefore |].
      left. split; [reflexivity | exact Hup].
  - intros Hnone. now apply barrier_exits.
  - intros k Hk Hbefore Hup.
    apply barrier_returns; try assumption. lia.
Qed.

Lemma somePeerUp_connectedWorld (doc : json) (upFrom t : Time) :
  somePeerUp (gsp (connectedWorld doc upFrom)) t = (upFrom <=? t).
Proof.
  unfold somePeerUp, peerIsUp. simpl. now rewrite orb_false_r.
Qed.

Lemma WaitForPeersUp_returns_when_peer_is_up :
  exists tr,
    WaitForPeersUp 3006 (connectedWorld JNull 0)
    = Some (Returned tt,
            advance (connectedWorld JNull 0) (Z.of_nat 0 * waitForUpDelay) tr)
    /\ sleepsOf tr = repeat waitForUpDelay 0.
Proof.
  apply (proj2 (proj2 (WaitForPeersUp_barrier (connectedWorld JNull 0) 3006
                         ltac:(simpl; discriminate)
                         ltac:(unfold fatalTurn; lia))) 0%nat).
  - unfold fatalTurn. lia.
  - intros j Hj. lia.
  - reflexivity.
Defined.

(** C5 as worded does not hold: a peer that comes up 600.2s after the start was
    not reachable at any instant of the first ten minutes, and yet the wait
    returns to the caller (at 600.2s) and the process is not ended. *)
Lemma WaitForPeersUp_returns_after_ten_minutes :
  Peers (discoverer (gsp (connectedWorld JNull lateInstant)))
        (clock (connectedWorld JNull lateInstant)) <> []
  /\ (forall t : Time,
        t <= clock (connectedWorld JNull lateInstant) + waitForUpMaxWait ->
        somePeerUp (gsp (connectedWorld JNull lateInstant)) t = false)
  /\ (exists tr,
        WaitForPeersUp 3006 (connectedWorld JNull lateInstant)
        = Some (Returned tt, advance (connectedWorld JNull lateInstant) lateInstant tr))
  /\ (forall code w',
        WaitForPeersUp 3006 (connectedWorld JNull lateInstant)
        <> Some (Exited code, w')).
Proof.
  split; [simpl; discriminate |]. split.
  - intros t Ht. rewrite somePeerUp_connectedWorld.
    apply Z.leb_gt. simpl in Ht.
    unfold lateInstant, waitForUpMaxWait, Minute, Second, Millisecond in *. lia.
  - destruct (barrier_returns (connectedWorld JNull lateInstant) 3006 3001)
      as [tr [Hrun _]].
    + simpl. discriminate.
    + unfold fatalTurn. lia.
    + lia.
    + intros j Hj. rewrite somePeerUp_connectedWorld.
      apply Z.leb_gt. unfold pollInstant. simpl clock.
      unfold lateInstant, waitForUpDelay, Second, Millisecond. lia.
    + rewrite somePeerUp_connectedWorld. reflexivity.
    + split.
      * exists tr. rewrite Hrun. reflexivity.
      * intros code w' Hexit. rewrite Hrun in Hexit. discriminate Hexit.
Qed.

(* ================================================================= *)
(** ** Marshal and unmarshal agree

    Under the two facts of the libraries that matter here (an identifier is
    parsed back from its text, and the json tags of [Generation] match
    themselves only), what a peer encodes is what the caller decodes. *)

Section RoundTrip.
Context `{GoLib}.
Hypothesis uuid_text_roundtrip : forall u, uuidParse (uuidString u) = Some u.
Hypothesis equalFold_on_tags :
  forall a b, In a generationTags -> In b generationTags ->
              equalFold a b = String.eqb a b.

Lemma unmarshalInts_marshal (l : list Z) :
  Forall (fun z => inInt64 z = true) l ->
  mapResult (fun e => unmarshalInt e 0) (map JInt l) = Ok l.
Proof.
  induction 1 as [| z l Hz _ IH]; simpl; [reflexivity |].
  now rewrite Hz, IH.
Qed.

Lemma unmarshalField_tag (key : string) (v : json) (g : Generation) :
  In key generationTags ->
  unmarshalField key v g
  = (if String.eqb key "start" then mapOk (withStart g) (unmarshalInt v (Start g))
     else if String.eqb key "end" then mapOk (withEnd g) (unmarshalInt v (End_ g))
     else if String.eqb key "version" then mapOk (withVersion g) (unmarshalInt v (Version g))
     else if String.eqb key "timestamp" then mapOk (withTimestamp g) (unmarshalInt v (Timestamp g))
     else if String.eqb key "leader" then mapOk (withLeader g) (unmarshalInt v (Leader g))
     else if String.eqb key "followers" then mapOk (withFollowers g) (unmarshalIntSlice v (Followers g))
     else if String.eqb key "tx" then mapOk (withTx g) (unmarshalUUID v (Tx g))
     else if String.eqb key "txLeader" then mapOk (withTxLeader g) (unmarshalInt v (TxLeader g))
     else if String.eqb key "status" then mapOk (withStatus g) (unmarshalInt v (Status g))
     else if String.eqb key "toDelete" then mapOk (withToDelete g) (unmarshalBool v (ToDelete g))
     else Ok g).
Proof.
  intros Hkey. unfold unmarshalField.
  rewrite !(equalFold_on_tags key) by (assumption || (simpl; tauto)).
  reflexivity.
Qed.

Lemma unmarshal_marshalGeneration (g cur : Generation) :
  fitsInt64 g ->
  unmarshalGeneration (marshalGeneration g) cur = Ok g.
Proof.
  destruct g as [st en ve ti le fo tx tl sa td].
  unfold fitsInt64.
  cbn [Start End_ Version Timestamp Leader Followers Tx TxLeader Status ToDelete].
  intros (Hst & Hen & Hve & Hti & Hle & Htl & Hsa & Hfo).
  assert (Hslice : forall c, unmarshalIntSlice (marshalIntSlice fo) c = Ok fo).
  { intros c. destruct fo as [l |]; simpl; [| reflexivity].
    simpl in Hfo. now rewrite (unmarshalInts_marshal l Hfo). }
  unfold marshalGeneration, unmarshalGeneration.
  cbn [Start End_ Version Timestamp Leader Followers Tx TxLeader Status ToDelete].
  repeat (cbn [unmarshalMembers];
          rewrite unmarshalField_tag by (simpl; tauto);
          simpl String.eqb; cbv iota;
          unfold unmarshalInt, unmarshalBool, unmarshalUUID;
          rewrite ?Hst, ?Hen, ?Hve, ?Hti, ?Hle, ?Htl, ?Hsa, ?Hslice,
            ?uuid_text_roundtrip;
          cbn [mapOk]).
  reflexivity.
Qed.

Lemma unmarshal_marshalGenerationPtr_slot (slot : option Generation) :
  (forall g, slot = Some g -> fitsInt64 g) ->
  unmarshalGeneration (marshalGenerationPtr slot) zeroGeneration
  = Ok (match slot with Some g => g | None => zeroGeneration end).
Proof.
  intros Hfit. destruct slot as [g |]; simpl; [| reflexivity].
  apply unmarshal_marshalGeneration. now apply Hfit.
Qed.

(** What [GetGenerations] decodes from the document [getGenHandler] encodes:
    a nil slot arrives as the zero generation. *)
Lemma decodeGenerations_of_served (result : slice (option Generation)) :
  (forall g, In (Some g) (elems result) -> fitsInt64 g) ->
  decodeGenerations (Some (marshalGenerationPtrs result))
  = Ok (option_map
          (map (fun slot => match slot with
                            | Some g => g
                            | None => zeroGeneration
                            end)) result).
Proof.
  destruct result as [slots |]; simpl; [| reflexivity].
  intros Hfit. unfold mapOk.
  assert (Hall : mapResult (fun e => unmarshalGeneration e zeroGeneration)
                   (map marshalGenerationPtr slots)
                 = Ok (map (fun slot => match slot with
                                        | Some g => g
                                        | None => zeroGeneration
                                        end) slots)).
  { induction slots as [| slot slots IH]; [reflexivity |].
    cbn [map mapResult].
    rewrite unmarshal_marshalGenerationPtr_slot
      by (intros g Hg; apply Hfit; left; exact Hg).
    rewrite IH by (intros g Hg; apply Hfit; right; exact Hg).
    reflexivity. }
  now rewrite Hall.
Qed.

(** A peer that holds a committed and a proposed generation: the caller gets
    both back when their versions are positive. *)
Lemma GetGenerations_reads_back `{Conf} (w w' : World) (ordinal : Z)
  (token : Token) (r : Response) (committed proposed : Generation) :
  fitsInt64 committed -> fitsInt64 proposed ->
  0 < Version committed -> 0 < Version proposed ->
  requestGet ordinal (gossipGenerationUrl (tokenString token)) w
  = (Returned (Some r, None), w') ->
  RespBody r = Some (marshalGenerationPtrs (Some [Some committed; Some proposed])) ->
  GetGenerations ordinal token w
  = (Returned {| Committed := Some committed; Proposed := Some proposed;
                 Error := None |}, w').
Proof.
  intros Hc Hp Hvc Hvp Hreq Hbody.
  unfold GetGenerations, bind. rewrite Hreq, Hbody.
  rewrite decodeGenerations_of_served.
  - unfold presentAt, ret. simpl.
    destruct (Z.ltb_spec 0 (Version committed)); [| lia].
    destruct (Z.ltb_spec 0 (Version proposed)); [| lia].
    reflexivity.
  - intros g [Hg | [Hg | []]]; inversion Hg; subst; assumption.
Qed.


(** A peer whose slots are nil or hold generations without a positive
    version: the caller sees no generation at all. *)
Lemma GetGenerations_ignores_unversioned `{Conf} (w w' : World) (ordinal : Z)
  (token : Token) (r : Response) (result : slice (option Generation)) :
  (forall g, In (Some g) (elems result) -> fitsInt64 g /\ Version g <= 0) ->
  requestGet ordinal (gossipGenerationUrl (tokenString token)) w
  = (Returned (Some r, None), w') ->
  RespBody r = Some (marshalGenerationPtrs result) ->
  GetGenerations ordinal token w
  = (Returned {| Committed := None; Proposed := None; Error := None |}, w').
Proof.
  intros Hslots Hreq Hbody.
  unfold GetGenerations, bind. rewrite Hreq, Hbody.
  rewrite decodeGenerations_of_served by (intros g Hg; now apply Hslots).
  assert (Habsent : forall i,
             presentAt
               (option_map
                  (map (fun slot => match slot with
                                    | Some g => g
                                    | None => zeroGeneration
                                    end)) result) i = None).
  { intros i. unfold presentAt. destruct result as [slots |]; simpl.
    - rewrite nth_error_map.
      destruct (nth_error slots i) as [slot |] eqn:Hnth; simpl; [| reflexivity].
      destruct slot as [g |]; [| reflexivity].
      destruct (Hslots g (nth_error_In _ _ Hnth)) as [_ Hv].
      destruct (Z.ltb_spec 0 (Version g)); [lia | reflexivity].
    - now destruct i. }
  unfold ret. now rewrite !Habsent.
Qed.

End RoundTrip.

(* ================================================================= *)
(** ** The consumer response on a connection that fails *)

(** When the connection takes no more bytes, [marshalResponse] hands back
    the error of the first write and nothing is written. *)
Lemma marshalResponse_on_closed_connection `{Conf}
  (hdr : list (string * string)) (items : list consumerResponseItem) :
  marshalResponse {| Header := hdr; Conn := {| room := 0; taken := [] |} |} items
  = ({| Header := headerAdd hdr "Content-Type" contentType;
        Conn := {| room := 0; taken := [] |} |},
     Some (ErrText "short write")).
Proof.
  unfold marshalResponse, binaryWrite, Write, limitedWriter_Writer, orReturn.
  rewrite putFixed_length. reflexivity.
Qed.

(* ================================================================= *)
(** ** Further properties of the inbound handlers *)

Lemma sampleLib_faithful : @libFaithful sampleLib.
Proof.
  split.
  - intros u. cbn [uuidParse uuidString sampleLib].
    assert (Hu : N.of_uint (N.to_uint u) = u) by apply DecimalN.Unsigned.of_to.
    destruct (N.to_uint u) as [| d | d | d | d | d | d | d | d | d | d] eqn:E.
    { rewrite NilZero.usu_nil. cbn in Hu |- *. now rewrite <- Hu. }
    all: rewrite NilZero.usu by discriminate; cbn [option_map]; now rewrite Hu.
  - intros a b _ _. reflexivity.
Qed.

Lemma unmarshalGenerationPtr_marshal `{GoLib} (slot : option Generation) :
  libFaithful ->
  (forall g, slot = Some g -> fitsInt64 g) ->
  unmarshalGenerationPtr (marshalGenerationPtr slot) = Ok slot.
Proof.
  intros [Huuid Hfold] Hfit. destruct slot as [g |]; [| reflexivity].
  change (unmarshalGenerationPtr (marshalGenerationPtr (Some g)))
    with (mapOk Some (unmarshalGeneration (marshalGeneration g) zeroGeneration)).
  rewrite (unmarshal_marshalGeneration Huuid Hfold g zeroGeneration)
    by (now apply Hfit).
  reflexivity.
Qed.

(** X1. A POST whose body is the JSON array [existing, new] of two marshalled
    generations (the first may be null) is decoded back to the same two
    generations, handed to the registered listener in one call of
    [OnNewRemoteGeneration], and answered with what the listener returns. *)
Theorem postGenHandler_accepts_generation_pair `{GoLib}
  (tokenParam : string) (token : Z) (existing : option Generation)
  (new : Generation) (l : GenListener) (w : World) :
  libFaithful ->
  parseInt64 tokenParam = Some token ->
  (forall g, existing = Some g -> fitsInt64 g) ->
  fitsInt64 new ->
  genListener (gsp w) = Some l ->
  postGenHandler tokenParam
    (Some (JArr [marshalGenerationPtr existing; marshalGeneration new])) w
  = (Returned (OnNewRemoteGeneration l existing (Some new)),
     withEvents w [EvNewRemoteGeneration existing (Some new)]).
Proof.
  intros Hlib Hparse Hexisting Hnew Hl.
  apply (postGenHandler_forwards_pair tokenParam token _ existing new l w Hparse);
    [| exact Hl].
  unfold decodeGenerationPtrs. cbn [mapResult].
  rewrite (unmarshalGenerationPtr_marshal existing Hlib Hexisting).
  change (marshalGeneration new) with (marshalGenerationPtr (Some new)).
  rewrite (unmarshalGenerationPtr_marshal (Some new) Hlib)
    by (intros g Hg; inversion Hg; subst; exact Hnew).
  reflexivity.
Qed.

Lemma postGenHandler_accepts_sample_pair :
  @postGenHandler sampleLib "42"
    (Some (JArr [@marshalGenerationPtr sampleLib None;
                 @marshalGeneration sampleLib sampleGeneration]))
    (worldWithListener otherListener)
  = (Returned (Some (ErrOther 1)),
     withEvents (worldWithListener otherListener)
       [EvNewRemoteGeneration None (Some sampleGeneration)]).
Proof.
  apply (@postGenHandler_accepts_generation_pair sampleLib "42" 42 None
           sampleGeneration otherListener (worldWithListener otherListener)).
  - exact sampleLib_faithful.
  - reflexivity.
  - intros g Hg. discriminate Hg.
  - unfold fitsInt64. simpl. repeat split; repeat constructor.
  - reflexivity.
Defined.

(** X2. [postGenHandler] reaches the listener in one case only: the token
    parses, the body decodes to exactly two slots with a non-nil second one,
    and a listener is registered; the outcome is then the listener's answer
    and the call is the single event added.  In every other case the world
    is left as it was, and the handler returns an error or panics for want
    of a listener. *)
Theorem postGenHandler_reaches_listener_only_for_pairs `{GoLib}
  (tokenParam : string) (body : Body) (w : World) :
  (snd (postGenHandler tokenParam body w) = w
   /\ ((exists err, fst (postGenHandler tokenParam body w) = Returned (Some err))
       \/ fst (postGenHandler tokenParam body w)
          = Panicked "Generation listener was not registered"))
  \/ (exists token g0 g1 l,
         parseInt64 tokenParam = Some token
         /\ decodeGenerationPtrs body = Ok (Some [g0; Some g1])
         /\ genListener (gsp w) = Some l
         /\ postGenHandler tokenParam body w
            = (Returned (OnNewRemoteGeneration l g0 (Some g1)),
               withEvents w [EvNewRemoteGeneration g0 (Some g1)])).
Proof.
  unfold postGenHandler.
  destruct (parseInt64 tokenParam) as [token |]; [| left; split; [reflexivity | left; eexists; reflexivity]].
  destruct (decodeGenerationPtrs body) as [gens | err];
    [| left; split; [reflexivity | left; eexists; reflexivity]].
  destruct gens as [[| g0 [| g1 [| g2 rest]]] |];
    try (left; split; [reflexivity | left; eexists; reflexivity]).
  - destruct g1 as [g1 |];
      [| left; split; [reflexivity | left; eexists; reflexivity]].
    cbn. unfold bind, self.
    destruct (genListener (gsp w)) as [l |] eqn:Hl.
    + right. exists token, g0, g1, l. repeat split; reflexivity.
    + left. split; [reflexivity | right; reflexivity].
  - left.
    assert (Hlen : (len (Some (g0 :: g1 :: g2 :: rest)) =? 2) = false).
    { apply Z.eqb_neq. unfold len. cbn [elems List.length]. lia. }
    rewrite Hlen. split; [reflexivity | left; eexists; reflexivity].
Qed.

(** X3. With no listener registered (as on a gossiper fresh from
    [NewGossiper]), a well-formed pair makes [postGenHandler] panic with
    "Generation listener was not registered"; nothing is answered. *)
Theorem postGenHandler_without_listener_panics `{GoLib}
  (tokenParam : string) (token : Z) (body : Body)
  (g0 : option Generation) (g1 : Generation) (w : World) :
  parseInt64 tokenParam = Some token ->
  decodeGenerationPtrs body = Ok (Some [g0; Some g1]) ->
  genListener (gsp w) = None ->
  postGenHandler tokenParam body w
  = (Panicked "Generation listener was not registered", w).
Proof.
  intros Hparse Hdec Hnone. unfold postGenHandler.
  rewrite Hparse, Hdec. cbn. unfold bind, self. now rewrite Hnone.
Qed.

Lemma postGenHandler_on_new_gossiper_panics :
  @postGenHandler sampleLib "42"
    (Some (JArr [JNull; JObj [("version"%string, JInt 1)]]))
    (freshWorld trioDiscoverer)
  = (Panicked "Generation listener was not registered", freshWorld trioDiscoverer).
Proof.
  apply (@postGenHandler_without_listener_panics sampleLib "42" 42 _ None
           (withVersion zeroGeneration 1) (freshWorld trioDiscoverer)).
  - reflexivity.
  - reflexivity.
  - reflexivity.
Defined.

(* ----------------------------------------------------------------- *)
(** *** The accept handler *)

(** X4. A POST to the accept route whose body is a marshalled generation is
    decoded back to that generation and handed to the listener's
    [OnRemoteSetAsAccepted]; the handler answers what the listener
    returns. *)
Theorem postGenAcceptHandler_forwards_generation `{GoLib}
  (tokenParam : string) (token : Z) (gen : Generation) (l : GenListener)
  (w : World) :
  libFaithful ->
  parseInt64 tokenParam = Some token ->
  fitsInt64 gen ->
  genListener (gsp w) = Some l ->
  postGenAcceptHandler tokenParam (Some (marshalGeneration gen)) w
  = (Returned (OnRemoteSetAsAccepted l (Some gen)),
     withEvents w [EvRemoteSetAsAccepted (Some gen)]).
Proof.
  intros [Huuid Hfold] Hparse Hfit Hl. unfold postGenAcceptHandler.
  rewrite Hparse. unfold decodeGeneration.
  rewrite (unmarshal_marshalGeneration Huuid Hfold gen zeroGeneration Hfit).
  unfold bind, self. rewrite Hl. reflexivity.
Qed.

Lemma postGenAcceptHandler_forwards_sample :
  @postGenAcceptHandler sampleLib "42"
    (Some (@marshalGeneration sampleLib sampleGeneration))
    (worldWithListener sampleListener)
  = (Returned None,
     withEvents (worldWithListener sampleListener)
       [EvRemoteSetAsAccepted (Some sampleGeneration)]).
Proof.
  apply (@postGenAcceptHandler_forwards_generation sampleLib "42" 42
           sampleGeneration sampleListener (worldWithListener sampleListener)).
  - exact sampleLib_faithful.
  - reflexivity.
  - unfold fitsInt64. simpl. repeat split; repeat constructor.
  - reflexivity.
Defined.

Lemma unmarshalMembers_unknown_keys `{GoLib} (ms : list (string * json))
  (g : Generation) :
  Forall (fun kv => forallb (fun tag => negb (equalFold (fst kv) tag))
                      generationTags = true) ms ->
  unmarshalMembers ms g = Ok g.
Proof.
  induction 1 as [| [key v] ms Hkey _ IH]; [reflexivity |].
  cbn [unmarshalMembers]. cbn [fst forallb generationTags] in Hkey.
  repeat (apply andb_prop in Hkey; destruct Hkey as [?Hk Hkey]).
  repeat match goal with
         | Hk : negb _ = true |- _ => apply negb_true_iff in Hk
         end.
  unfold unmarshalField.
  repeat match goal with
         | Hk : equalFold key _ = false |- _ => rewrite Hk; clear Hk
         end.
  exact IH.
Qed.

(** X5. The accept handler requires no field: a body that is [null], or an
    object none of whose keys names a field of [Generation] (the empty
    object among them), is accepted and handed to the listener as the zero
    generation. *)
Theorem postGenAcceptHandler_accepts_fieldless_body `{GoLib}
  (tokenParam : string) (token : Z) (doc : json) (l : GenListener) (w : World) :
  parseInt64 tokenParam = Some token ->
  doc = JNull
  \/ (exists ms,
         doc = JObj ms
         /\ Forall (fun kv => forallb (fun tag => negb (equalFold (fst kv) tag))
                               generationTags = true) ms) ->
  genListener (gsp w) = Some l ->
  postGenAcceptHandler tokenParam (Some doc) w
  = (Returned (OnRemoteSetAsAccepted l (Some zeroGeneration)),
     withEvents w [EvRemoteSetAsAccepted (Some zeroGeneration)]).
Proof.
  intros Hparse Hdoc Hl. unfold postGenAcceptHandler.
  rewrite Hparse. unfold decodeGeneration.
  assert (Hdec : unmarshalGeneration doc zeroGeneration = Ok zeroGeneration).
  { destruct Hdoc as [-> | [ms [-> Hkeys]]]; [reflexivity |].
    cbn [unmarshalGeneration]. now apply unmarshalMembers_unknown_keys. }
  rewrite Hdec. unfold bind, self. rewrite Hl. reflexivity.
Qed.

Lemma postGenAcceptHandler_accepts_unknown_keys :
  @postGenAcceptHandler sampleLib "42" (Some (JObj [("comment"%string, JStr "x")]))
    (worldWithListener sampleListener)
  = (Returned None,
     withEvents (worldWithListener sampleListener)
       [EvRemoteSetAsAccepted (Some zeroGeneration)]).
Proof.
  apply (@postGenAcceptHandler_accepts_fieldless_body sampleLib "42" 42
           (JObj [("comment"%string, JStr "x")]) sampleListener
           (worldWithListener sampleListener)).
  - reflexivity.
  - right. eexists. split; [reflexivity |]. repeat constructor.
  - reflexivity.
Defined.

(** X6. The accept handler has no guard for a missing listener: when none is
    registered, every body that decodes makes it panic with a nil
    dereference, the world left as it was. *)
Theorem postGenAcceptHandler_without_listener_panics `{GoLib}
  (tokenParam : string) (token : Z) (body : Body) (gen : Generation) (w : World) :
  parseInt64 tokenParam = Some token ->
  decodeGeneration body = Ok gen ->
  genListener (gsp w) = None ->
  postGenAcceptHandler tokenParam body w = (Panicked nilDeref, w).
Proof.
  intros Hparse Hdec Hnone. unfold postGenAcceptHandler.
  rewrite Hparse, Hdec. unfold bind, self. now rewrite Hnone.
Qed.

Lemma postGenAcceptHandler_on_new_gossiper_panics :
  @postGenAcceptHandler sampleLib "42" (Some JNull) (freshWorld trioDiscoverer)
  = (Panicked nilDeref, freshWorld trioDiscoverer).
Proof.
  apply (@postGenAcceptHandler_without_listener_panics sampleLib "42" 42
           (Some JNull) zeroGeneration (freshWorld trioDiscoverer));
    reflexivity.
Defined.

(* ----------------------------------------------------------------- *)
(** *** The read handler *)



(* ================================================================= *)
(** ** Further properties of the outbound requests *)

Lemma indexAt_Returned {A : Type} (l : list A) (i : Z) (a : A) :
  indexAt l i = Returned a ->
  0 <= i < Z.of_nat (List.length l) /\ nth_error l (Z.to_nat i) = Some a.
Proof.
  unfold indexAt. destruct (Z.ltb_spec i 0) as [Hneg | Hpos]; [discriminate |].
  destruct (nth_error l (Z.to_nat i)) as [x |] eqn:Hnth; [| discriminate].
  intros Heq. inversion Heq; subst. split; [| reflexivity].
  assert (Hlt : (Z.to_nat i < List.length l)%nat)
    by (apply nth_error_Some; congruence).
  lia.
Qed.

(** X8. Neither [requestGet] nor [requestPost] changes the world, and when
    one of them returns without an error the response is there and its
    status is 200: a caller that has checked [err] may use the response. *)
Theorem request_without_error_has_ok_response `{Conf}
  (ordinal : Z) (url : string) (body : json) (w w' : World)
  (resp : option Response) :
  (requestGet ordinal url w = (Returned (resp, None), w') ->
   w' = w /\ exists r, resp = Some r /\ StatusCode r = StatusOK)
  /\ (requestPost ordinal url body w = (Returned (resp, None), w') ->
      w' = w /\ exists r, resp = Some r /\ StatusCode r = StatusOK).
Proof.
  split.
  - unfold requestGet, bind, getClientInfo, self, now, ret, liftOutcome, panic.
    destruct (connections (gsp w) (clock w) ordinal) as [c |]; [| discriminate].
    destruct (Z.of_nat (List.length (Brokers (discoverer (gsp w)) (clock w)))
              <=? ordinal); [discriminate |].
    destruct (indexAt (Brokers (discoverer (gsp w)) (clock w)) ordinal)
      as [b | msg | code]; try discriminate.
    destruct (Get (client c) (clock w) (getPeerUrl b url)) as [[r |] [e |]];
      try discriminate.
    destruct (Z.eqb_spec (StatusCode r) StatusOK) as [Hok | Hbad];
      cbn [negb]; intros Hrun; inversion Hrun; subst.
    split; [reflexivity |]. exists r. split; [reflexivity | exact Hok].
  - unfold requestPost, bind, getClientInfo, self, now, ret, liftOutcome, panic.
    destruct (connections (gsp w) (clock w) ordinal) as [c |]; [| discriminate].
    destruct (Z.of_nat (List.length (Brokers (discoverer (gsp w)) (clock w)))
              <=? ordinal); [discriminate |].
    destruct (indexAt (Brokers (discoverer (gsp w)) (clock w)) ordinal)
      as [b | msg | code]; try discriminate.
    destruct (Post (client c) (clock w) (getPeerUrl b url) "application/json" body)
      as [[r |] [e |]]; try discriminate.
    destruct (Z.eqb_spec (StatusCode r) StatusOK) as [Hok | Hbad];
      cbn [negb]; intros Hrun; inversion Hrun; subst.
    split; [reflexivity |]. exists r. split; [reflexivity | exact Hok].
Qed.

Lemma requestGet_ok_on_connected_peer :
  connectedWorld JNull 0 = connectedWorld JNull 0
  /\ exists r,
      Some {| StatusCode := 200; StatusText := "200 OK"; RespBody := Some JNull |}
      = Some r
      /\ StatusCode r = StatusOK.
Proof.
  apply (proj1 (@request_without_error_has_ok_response sampleConf 1
                  "/v1/generation/0" JNull
                  (connectedWorld JNull 0) (connectedWorld JNull 0)
                  (Some {| StatusCode := 200; StatusText := "200 OK";
                           RespBody := Some JNull |}))).
  reflexivity.
Defined.

Lemma requestGet_without_response `{Conf} (w : World) (ordinal : Z) (url : string) :
  GetFails w ordinal ->
  exists err, requestGet ordinal url w = (Returned (None, Some err), w).
Proof.
  intros Hfails. unfold requestGet, bind, getClientInfo, self, now, ret, liftOutcome.
  destruct Hfails as [Hnone | c Hc Hlen | c b Hc Hb Hget | c b Hc Hb Hget].
  - rewrite Hnone. eexists. reflexivity.
  - rewrite Hc.
    destruct (Z.leb_spec
                (Z.of_nat (List.length (Brokers (discoverer (gsp w)) (clock w))))
                ordinal) as [_ | Hlt]; [| lia].
    eexists. reflexivity.
  - rewrite Hc.
    destruct (Z.of_nat (List.length (Brokers (discoverer (gsp w)) (clock w)))
              <=? ordinal); [eexists; reflexivity |].
    rewrite Hb. destruct (Hget (getPeerUrl b url)) as [err Herr].
    rewrite Herr. eexists. reflexivity.
  - rewrite Hc.
    destruct (Z.of_nat (List.length (Brokers (discoverer (gsp w)) (clock w)))
              <=? ordinal); [eexists; reflexivity |].
    rewrite Hb. destruct (Hget (getPeerUrl b url)) as [r [Hr Hstatus]].
    rewrite Hr.
    destruct (Z.eqb_spec (StatusCode r) StatusOK) as [Heq | _]; [contradiction |].
    simpl. eexists. reflexivity.
Qed.

(** X9. When the peer has no connection, is not in the broker list, the
    exchange fails or the answer is not 200, [GetGenerations] returns
    normally: the result carries the error, both generations are nil, and
    the world is unchanged. *)
Theorem GetGenerations_reports_unreachable_peer `{GoLib} `{Conf}
  (w : World) (ordinal : Z) (token : Token) :
  GetFails w ordinal ->
  exists err,
    GetGenerations ordinal token w
    = (Returned {| Committed := None; Proposed := None; Error := Some err |}, w).
Proof.
  intros Hfails.
  destruct (requestGet_without_response w ordinal
              (gossipGenerationUrl (tokenString token)) Hfails) as [err Herr].
  exists err. unfold GetGenerations, bind. rewrite Herr. reflexivity.
Qed.

Lemma GetGenerations_from_unconnected_peer :
  exists err,
    @GetGenerations sampleLib sampleConf 2 0 (connectedWorld JNull 0)
    = (Returned {| Committed := None; Proposed := None; Error := Some err |},
       connectedWorld JNull 0).
Proof.
  apply (@GetGenerations_reports_unreachable_peer sampleLib sampleConf
           (connectedWorld JNull 0) 2 0).
  apply GetNoConnection. reflexivity.
Defined.

(** X10. When the exchange succeeds but the body is not a JSON document, or
    is a document other than [null] or an array, [GetGenerations] returns a
    result that carries the decoding error and no generation. *)
Theorem GetGenerations_reports_undecodable_body `{GoLib} `{Conf}
  (w w' : World) (ordinal : Z) (token : Token) (r : Response) :
  requestGet ordinal (gossipGenerationUrl (tokenString token)) w
  = (Returned (Some r, None), w') ->
  match RespBody r with
  | None => True
  | Some JNull => False
  | Some (JArr _) => False
  | Some _ => True
  end ->
  exists err,
    GetGenerations ordinal token w
    = (Returned {| Committed := None; Proposed := None; Error := Some err |}, w').
Proof.
  intros Hreq Hbody. unfold GetGenerations, bind. rewrite Hreq.
  destruct (RespBody r) as [[| b | z | lit | s | items | members] |];
    try contradiction; eexists; reflexivity.
Qed.

Lemma GetGenerations_from_peer_answering_object :
  exists err,
    @GetGenerations sampleLib sampleConf 1 0 (connectedWorld (JObj []) 0)
    = (Returned {| Committed := None; Proposed := None; Error := Some err |},
       connectedWorld (JObj []) 0).
Proof.
  apply (@GetGenerations_reports_undecodable_body sampleLib sampleConf
           (connectedWorld (JObj []) 0) (connectedWorld (JObj []) 0) 1 0
           {| StatusCode := 200; StatusText := "200 OK";
              RespBody := Some (JObj []) |}).
  - reflexivity.
  - exact I.
Defined.

(** When a POST ends with a response and no error: the peer is connected and
    listed, and it answered 200 to the request to this path with this
    body. *)
Lemma requestPost_ok_iff `{Conf} (ordinal : Z) (url : string) (body : json)
  (w : World) (r : Response) :
  requestPost ordinal url body w = (Returned (Some r, None), w)
  <-> exists c b,
        connections (gsp w) (clock w) ordinal = Some c
        /\ indexAt (Brokers (discoverer (gsp w)) (clock w)) ordinal = Returned b
        /\ Post (client c) (clock w) (getPeerUrl b url) "application/json" body
           = (Some r, None)
        /\ StatusCode r = StatusOK.
Proof.
  unfold requestPost, bind, getClientInfo, self, now, ret, liftOutcome, panic.
  split.
  - destruct (connections (gsp w) (clock w) ordinal) as [c |]; [| discriminate].
    destruct (Z.of_nat (List.length (Brokers (discoverer (gsp w)) (clock w)))
              <=? ordinal); [discriminate |].
    destruct (indexAt (Brokers (discoverer (gsp w)) (clock w)) ordinal)
      as [b | msg | code]; try discriminate.
    destruct (Post (client c) (clock w) (getPeerUrl b url) "application/json" body)
      as [[r' |] [e |]] eqn:Hpost; try discriminate.
    destruct (Z.eqb_spec (StatusCode r') StatusOK) as [Hok | Hbad];
      cbn [negb]; intros Hrun; inversion Hrun; subst.
    exists c, b. repeat split; assumption.
  - intros (c & b & Hc & Hb & Hpost & Hok).
    rewrite Hc.
    destruct (indexAt_Returned _ _ _ Hb) as [Hrange _].
    destruct (Z.leb_spec
                (Z.of_nat (List.length (Brokers (discoverer (gsp w)) (clock w))))
                ordinal) as [Hle | _]; [lia |].
    rewrite Hb, Hpost.
    destruct (Z.eqb_spec (StatusCode r) StatusOK) as [_ | Hbad]; [| contradiction].
    reflexivity.
Qed.

Lemma requestPost_keeps_world `{Conf} (ordinal : Z) (url : string) (body : json)
  (w : World) :
  snd (requestPost ordinal url body w) = w.
Proof.
  unfold requestPost, bind, getClientInfo, self, now, ret, liftOutcome, panic.
  destruct (connections (gsp w) (clock w) ordinal) as [c |]; [| reflexivity].
  destruct (Z.of_nat (List.length (Brokers (discoverer (gsp w)) (clock w)))
            <=? ordinal); [reflexivity |].
  destruct (indexAt (Brokers (discoverer (gsp w)) (clock w)) ordinal)
    as [b | msg | code]; try reflexivity.
  destruct (Post (client c) (clock w) (getPeerUrl b url) "application/json" body)
    as [[r |] [e |]]; try reflexivity.
  now destruct (negb (StatusCode r =? StatusOK)).
Qed.

(** A call made of a POST, the deferred close and the return of the error
    gives nil exactly when the POST gave a response and no error. *)
Lemma post_then_close_returns_nil `{Conf} (ordinal : Z) (url : string)
  (body : json) (w : World) :
  fst ((re <- requestPost ordinal url body ;;
        deferBodyClose (fst re) ;;;
        ret (snd re)) w) = Returned None
  <-> exists r, requestPost ordinal url body w = (Returned (Some r, None), w).
Proof.
  pose proof (requestPost_keeps_world ordinal url body w) as Hw.
  unfold bind.
  destruct (requestPost ordinal url body w) as [[[resp err] | msg | code] w1];
    simpl in Hw; subst w1; cbn.
  - destruct resp as [r |]; cbn.
    + destruct err as [e |]; cbn.
      * split; [discriminate |]. intros [r' Hr']. discriminate Hr'.
      * split; [intros _; now exists r | reflexivity].
    + split; [discriminate |]. intros [r' Hr']. discriminate Hr'.
  - split; [discriminate |]. intros [r' Hr']. discriminate Hr'.
  - split; [discriminate |]. intros [r' Hr']. discriminate Hr'.
Qed.

(** X11. [SetAsCommitted] returns nil exactly when the peer is connected,
    is in the broker list, and answers 200 to a POST, with content type
    application/json, of the JSON text of the transaction id to the peer's
    propose URL of the token (the URL [SetGenerationAsProposed] posts to as
    well). *)
Theorem SetAsCommitted_returns_nil_iff_peer_answers_ok `{GoLib} `{Conf}
  (ordinal : Z) (token : Token) (tx : UUID) (w : World) :
  fst (SetAsCommitted ordinal token tx w) = Returned None
  <-> exists c b r,
        connections (gsp w) (clock w) ordinal = Some c
        /\ indexAt (Brokers (discoverer (gsp w)) (clock w)) ordinal = Returned b
        /\ Post (client c) (clock w)
             (getPeerUrl b (gossipGenerationProposeUrl token))
             "application/json" (JStr (uuidString tx))
           = (Some r, None)
        /\ StatusCode r = StatusOK.
Proof.
  unfold SetAsCommitted. rewrite post_then_close_returns_nil.
  split.
  - intros [r Hr]. apply requestPost_ok_iff in Hr.
    destruct Hr as (c & b & Hc & Hb & Hpost & Hok).
    exists c, b, r. repeat split; assumption.
  - intros (c & b & r & Hc & Hb & Hpost & Hok).
    exists r. apply requestPost_ok_iff. exists c, b. repeat split; assumption.
Qed.

(** X12. [SetGenerationAsProposed] panics at once on a nil generation, and
    for a generation it returns nil exactly when the peer is connected, is
    in the broker list, and answers 200 to a POST of the JSON object
    [{generation, expectedTx}] to the peer's propose URL of the generation's
    start token. *)
Theorem SetGenerationAsProposed_returns_nil_iff_peer_answers_ok `{GoLib} `{Conf}
  (ordinal : Z) (gen : Generation) (expectedTx : option UUID) (w : World) :
  SetGenerationAsProposed ordinal None expectedTx w = (Panicked nilDeref, w)
  /\ (fst (SetGenerationAsProposed ordinal (Some gen) expectedTx w) = Returned None
      <-> exists c b r,
            connections (gsp w) (clock w) ordinal = Some c
            /\ indexAt (Brokers (discoverer (gsp w)) (clock w)) ordinal = Returned b
            /\ Post (client c) (clock w)
                 (getPeerUrl b (gossipGenerationProposeUrl (Start gen)))
                 "application/json"
                 (JObj [("generation"%string, marshalGeneration gen);
                        ("expectedTx"%string, marshalUUIDPtr expectedTx)])
               = (Some r, None)
            /\ StatusCode r = StatusOK).
Proof.
  split; [reflexivity |].
  unfold SetGenerationAsProposed. rewrite post_then_close_returns_nil.
  split.
  - intros [r Hr]. apply requestPost_ok_iff in Hr.
    destruct Hr as (c & b & Hc & Hb & Hpost & Hok).
    exists c, b, r. repeat split; assumption.
  - intros (c & b & r & Hc & Hb & Hpost & Hok).
    exists r. apply requestPost_ok_iff. exists c, b. repeat split; assumption.
Qed.

(* ================================================================= *)
(** ** From a peer's store to the caller's result *)

(** X13. End to end, a peer whose store holds a committed and a proposed
    generation with positive versions: what its [getGenHandler] writes,
    [GetGenerations] reads back as the same two generations, without
    error. *)
Theorem GetGenerations_reads_back_served_generations `{GoLib} `{Conf}
  (peer w w' : World) (tokenParam : string) (peerToken : Z)
  (db : localdb_Client) (ordinal : Z) (token : Token) (r : Response)
  (committed proposed : Generation) :
  libFaithful ->
  localDb (gsp peer) = Some db ->
  parseInt64 tokenParam = Some peerToken ->
  GetGenerationsByToken db peerToken = Ok (Some [Some committed; Some proposed]) ->
  fitsInt64 committed -> fitsInt64 proposed ->
  0 < Version committed -> 0 < Version proposed ->
  requestGet ordinal (gossipGenerationUrl (tokenString token)) w
  = (Returned (Some r, None), w') ->
  RespBody r = servedBody peer tokenParam ->
  GetGenerations ordinal token w
  = (Returned {| Committed := Some committed; Proposed := Some proposed;
                 Error := None |}, w').
Proof.
  intros [Huuid Hfold] Hdb Hparse Hget Hc Hp Hvc Hvp Hreq Hbody.
  rewrite (servedBody_of_store peer tokenParam db peerToken _ Hdb Hparse Hget)
    in Hbody.
  exact (GetGenerations_reads_back Huuid Hfold w w' ordinal token r
           committed proposed Hc Hp Hvc Hvp Hreq Hbody).
Qed.

(** X14. End to end, a peer whose store holds only nil slots or generations
    whose version is not positive: the caller's result holds no generation
    at all; such records are invisible to [GetGenerations]. *)
Theorem GetGenerations_hides_unversioned_generations `{GoLib} `{Conf}
  (peer w w' : World) (tokenParam : string) (peerToken : Z)
  (db : localdb_Client) (ordinal : Z) (token : Token) (r : Response)
  (result : slice (option Generation)) :
  libFaithful ->
  localDb (gsp peer) = Some db ->
  parseInt64 tokenParam = Some peerToken ->
  GetGenerationsByToken db peerToken = Ok result ->
  (forall g, In (Some g) (elems result) -> fitsInt64 g /\ Version g <= 0) ->
  requestGet ordinal (gossipGenerationUrl (tokenString token)) w
  = (Returned (Some r, None), w') ->
  RespBody r = servedBody peer tokenParam ->
  GetGenerations ordinal token w
  = (Returned {| Committed := None; Proposed := None; Error := None |}, w').
Proof.
  intros [Huuid Hfold] Hdb Hparse Hget Hslots Hreq Hbody.
  rewrite (servedBody_of_store peer tokenParam db peerToken _ Hdb Hparse Hget)
    in Hbody.
  exact (GetGenerations_ignores_unversioned Huuid Hfold w w' ordinal token r
           result Hslots Hreq Hbody).
Qed.

Lemma GetGenerations_reads_back_sample_pair :
  @GetGenerations sampleLib sampleConf 1 0
    (connectedWorld
       (@marshalGenerationPtrs sampleLib
          (Some [Some sampleGeneration; Some (withVersion sampleGeneration 2)])) 0)
  = (Returned {| Committed := Some sampleGeneration;
                 Proposed := Some (withVersion sampleGeneration 2);
                 Error := None |},
     connectedWorld
       (@marshalGenerationPtrs sampleLib
          (Some [Some sampleGeneration; Some (withVersion sampleGeneration 2)])) 0).
Proof.
  apply (@GetGenerations_reads_back_served_generations sampleLib sampleConf
           (peerHolding (Some [Some sampleGeneration;
                               Some (withVersion sampleGeneration 2)]))
           _ _ "0"%string 0
           {| GetGenerationsByToken :=
                fun _ => Ok (Some [Some sampleGeneration;
                                   Some (withVersion sampleGeneration 2)]) |}
           1 0
           {| StatusCode := 200; StatusText := "200 OK";
              RespBody := Some (@marshalGenerationPtrs sampleLib
                                  (Some [Some sampleGeneration;
                                         Some (withVersion sampleGeneration 2)])) |}).
  - exact sampleLib_faithful.
  - reflexivity.
  - reflexivity.
  - reflexivity.
  - unfold fitsInt64. simpl. repeat split; repeat constructor.
  - unfold fitsInt64. simpl. repeat split; repeat constructor.
  - simpl. lia.
  - simpl. lia.
  - reflexivity.
  - reflexivity.
Defined.

Lemma GetGenerations_hides_zero_generation :
  @GetGenerations sampleLib sampleConf 1 0
    (connectedWorld
       (@marshalGenerationPtrs sampleLib (Some [Some zeroGeneration; None])) 0)
  = (Returned {| Committed := None; Proposed := None; Error := None |},
     connectedWorld
       (@marshalGenerationPtrs sampleLib (Some [Some zeroGeneration; None])) 0).
Proof.
  apply (@GetGenerations_hides_unversioned_generations sampleLib sampleConf
           (peerHolding (Some [Some zeroGeneration; None]))
           _ _ "0"%string 0
           {| GetGenerationsByToken :=
                fun _ => Ok (Some [Some zeroGeneration; None]) |}
           1 0
           {| StatusCode := 200; StatusText := "200 OK";
              RespBody := Some (@marshalGenerationPtrs sampleLib
                                  (Some [Some zeroGeneration; None])) |}
           (Some [Some zeroGeneration; None])).
  - exact sampleLib_faithful.
  - reflexivity.
  - reflexivity.
  - reflexivity.
  - intros g [Hg | [Hg | []]]; [| discriminate Hg].
    inversion Hg; subst. split; [| simpl; lia].
    unfold fitsInt64. simpl. repeat split; repeat constructor.
  - reflexivity.
  - reflexivity.
Defined.

(* ================================================================= *)
(** ** The consumer response on any connection *)

Lemma writeAll_app {W : Type} `{Writer W} (w : W) (a b : list (list byte)) :
  writeAll w (a ++ b) = orReturn (writeAll w a) (fun w' => writeAll w' b).
Proof.
  revert w. induction a as [| c a IH]; intros w; cbn [writeAll app].
  - reflexivity.
  - unfold orReturn at 1 3. destruct (Write w c) as [w1 [e |]]; [reflexivity |].
    apply IH.
Qed.

Lemma marshalItems_is_writeAll {W : Type} `{Writer W} `{Conf}
  (items : list consumerResponseItem) (w : W) :
  marshalItems items w = writeAll w (flat_map (itemChunks Endianness) items).
Proof.
  revert w. induction items as [| i items IH]; intros w; cbn [marshalItems flat_map].
  - reflexivity.
  - rewrite writeAll_app.
    change (Marshal i w) with (writeAll w (itemChunks Endianness i)).
    unfold orReturn. destruct (writeAll w (itemChunks Endianness i)) as [w1 [e |]];
      [reflexivity | apply IH].
Qed.

(** X15. On any connection, [marshalResponse] adds the content type header
    and then makes the writes of the payload one after the other: the
    2-byte count, then for each item the token, the generation id, the name
    length, the name and the data block.  It stops at the first write that
    fails and returns that error with the connection as that write left it;
    no later field is written. *)
Theorem marshalResponse_writes_fields_in_order {W : Type} `{Writer W} `{Conf}
  (w : ResponseWriter W) (items : list consumerResponseItem) :
  marshalResponse w items
  = ({| Header := headerAdd (Header w) "Content-Type" contentType;
        Conn := fst (writeAll (Conn w) (payloadChunks Endianness items)) |},
     snd (writeAll (Conn w) (payloadChunks Endianness items))).
Proof.
  unfold marshalResponse, payloadChunks, binaryWrite. cbn [writeAll].
  unfold orReturn.
  destruct (Write (Conn w)
              (putFixed Endianness 2 (uint16 (Z.of_nat (List.length items)))))
    as [w1 [e |]]; [reflexivity |].
  rewrite marshalItems_is_writeAll.
  now destruct (writeAll w1 (flat_map (itemChunks Endianness) items)).
Qed.

(* ================================================================= *)
(** ** Further properties of the startup barrier *)

Lemma logsOf_app (lvl : LogLevel) (a b : list Event) :
  logsOf lvl (a ++ b) = logsOf lvl a ++ logsOf lvl b.
Proof. unfold logsOf. apply flat_map_app. Qed.

Lemma anyPeerUp_only_polls (peers : list BrokerInfo) (w : World) :
  exists tr,
    anyPeerUp peers w
    = (Returned (existsb (peerIsUp (gsp w) (clock w)) peers), advance w 0 tr)
    /\ sleepsOf tr = []
    /\ forall lvl, logsOf lvl tr = [].
Proof.
  revert w. induction peers as [| peer rest IH]; intros w.
  - exists []. repeat split.
    simpl. unfold ret. now rewrite advance_zero.
  - cbn [anyPeerUp existsb]. unfold bind, getClientInfo, now, emit.
    change (match connections (gsp w) (clock w) (Ordinal peer) with
            | Some ci => isHostUp ci (clock w)
            | None => false
            end) with (peerIsUp (gsp w) (clock w) peer).
    destruct (peerIsUp (gsp w) (clock w) peer).
    + exists [EvPoll (clock w) (Ordinal peer) true]. repeat split.
      unfold advance, ret. simpl. now rewrite Z.add_0_r.
    + match goal with
      | |- context [anyPeerUp rest ?w1] => destruct (IH w1) as [tr [Hrun [Hsl Hlog]]]
      end.
      rewrite Hrun. simpl.
      exists (EvPoll (clock w) (Ordinal peer) false :: tr). repeat split.
      * unfold advance. simpl. now rewrite <- app_assoc.
      * exact Hsl.
      * intros lvl. exact (Hlog lvl).
Qed.

(** One turn in which no peer is up and the ceiling is not passed: the
    progress message is written when due, and [lastWarn] follows. *)
Lemma waitTurn_quiet_logs (start : Time) (lastWarn : Z) (w : World) :
  somePeerUp (gsp w) (clock w) = false ->
  wholeSeconds (clock w - start) <= 600 ->
  exists tr,
    waitTurn start lastWarn w
    = (Returned (Continue (if warnDue (wholeSeconds (clock w - start)) lastWarn
                           then wholeSeconds (clock w - start)
                           else lastWarn)),
       advance w waitForUpDelay tr)
    /\ logsOf LevelInfo tr
       = (if warnDue (wholeSeconds (clock w - start)) lastWarn
          then [wholeSeconds (clock w - start)] else [])
    /\ logsOf LevelFatal tr = [].
Proof.
  intros Hup Hbelow. unfold waitTurn, bind, self, now.
  destruct (anyPeerUp_only_polls (Peers (discoverer (gsp w)) (clock w)) w)
    as [tr [Hrun [Hsl Hlog]]].
  rewrite Hrun. fold (somePeerUp (gsp w) (clock w)). rewrite Hup.
  cbn [advance clock gsp trace]. rewrite Z.add_0_r.
  rewrite wholeSeconds_ceiling.
  destruct (Z.ltb_spec 600 (wholeSeconds (clock w - start))) as [Habove | _];
    [lia |].
  fold (warnDue (wholeSeconds (clock w - start)) lastWarn).
  destruct (warnDue (wholeSeconds (clock w - start)) lastWarn).
  - eexists. split; [| split].
    + unfold emit, ret, sleep, advance. cbn.
      rewrite ?Z.add_0_r, <- ?app_assoc. reflexivity.
    + rewrite !logsOf_app, Hlog. reflexivity.
    + rewrite !logsOf_app, Hlog. reflexivity.
  - eexists. split; [| split].
    + unfold emit, ret, sleep, advance. cbn.
      rewrite ?Z.add_0_r, <- ?app_assoc. reflexivity.
    + rewrite !logsOf_app, Hlog. reflexivity.
    + rewrite !logsOf_app, Hlog. reflexivity.
Qed.

(** The turn that passes the ceiling: the fatal message reports the seconds
    elapsed. *)
Lemma waitTurn_fatal_logs (start : Time) (lastWarn : Z) (w : World) :
  somePeerUp (gsp w) (clock w) = false ->
  600 < wholeSeconds (clock w - start) ->
  exists tr,
    waitTurn start lastWarn w = (Exited 1, advance w 0 tr)
    /\ logsOf LevelInfo tr
       = (if warnDue (wholeSeconds (clock w - start)) lastWarn
          then [wholeSeconds (clock w - start)] else [])
    /\ logsOf LevelFatal tr = [wholeSeconds (clock w - start)].
Proof.
  intros Hup Habove. unfold waitTurn, bind, self, now.
  destruct (anyPeerUp_only_polls (Peers (discoverer (gsp w)) (clock w)) w)
    as [tr [Hrun [Hsl Hlog]]].
  rewrite Hrun. fold (somePeerUp (gsp w) (clock w)). rewrite Hup.
  cbn [advance clock gsp trace]. rewrite Z.add_0_r.
  rewrite wholeSeconds_ceiling.
  destruct (Z.ltb_spec 600 (wholeSeconds (clock w - start))) as [_ | Hbelow];
    [| lia].
  fold (warnDue (wholeSeconds (clock w - start)) lastWarn).
  destruct (warnDue (wholeSeconds (clock w - start)) lastWarn).
  - eexists. split; [| split].
    + unfold logFatal, emit, ret, exit, bind, advance. cbn.
      rewrite ?Z.add_0_r, <- ?app_assoc. reflexivity.
    + rewrite !logsOf_app, Hlog. reflexivity.
    + rewrite !logsOf_app, Hlog. reflexivity.
  - eexists. split; [| split].
    + unfold logFatal, emit, ret, exit, bind, advance. cbn.
      rewrite ?Z.add_0_r, <- ?app_assoc. reflexivity.
    + rewrite !logsOf_app, Hlog. reflexivity.
    + rewrite !logsOf_app, Hlog. reflexivity.
Qed.

Lemma waitTurn_break_logs (start : Time) (lastWarn : Z) (w : World) :
  somePeerUp (gsp w) (clock w) = true ->
  exists tr,
    waitTurn start lastWarn w = (Returned Break, advance w 0 tr)
    /\ forall lvl, logsOf lvl tr = [].
Proof.
  intros Hup. unfold waitTurn, bind, self, now.
  destruct (anyPeerUp_only_polls (Peers (discoverer (gsp w)) (clock w)) w)
    as [tr [Hrun [Hsl Hlog]]].
  rewrite Hrun. fold (somePeerUp (gsp w) (clock w)). rewrite Hup.
  exists tr. split; [reflexivity | exact Hlog].
Qed.

Lemma wholeSeconds_of_poll (j : nat) :
  wholeSeconds (Z.of_nat j * waitForUpDelay) = Z.of_nat (j / 5).
Proof.
  unfold wholeSeconds.
  change Second with (5 * waitForUpDelay).
  rewrite Z.div_mul_cancel_r by (unfold waitForUpDelay, Millisecond; lia).
  now rewrite Nat2Z.inj_div.
Qed.

Lemma warnDue_at_poll (j : nat) :
  warnDue (Z.of_nat (j / 5)) (lastWarnAt j)
  = ((j mod 25 =? 0) && (25 <=? j))%nat
  /\ (if warnDue (Z.of_nat (j / 5)) (lastWarnAt j)
      then Z.of_nat (j / 5) else lastWarnAt j) = lastWarnAt (S j).
Proof.
  unfold warnDue, lastWarnAt.
  replace (S j - 1)%nat with j by lia.
  rewrite Z.rem_mod_nonneg by lia.
  pose proof (Nat2Z.inj_div j 5) as Hd5.
  pose proof (Nat2Z.inj_div j 25) as Hd25.
  pose proof (Nat2Z.inj_div (j - 1) 25) as Hp25.
  pose proof (Nat2Z.inj_mod j 25) as Hm25.
  destruct (Z.ltb_spec 1 (Z.of_nat (j / 5)));
    destruct (Z.eqb_spec (Z.of_nat (j / 5) mod 5) 0);
    destruct (Z.eqb_spec (Z.of_nat (j / 5)) (5 * Z.of_nat ((j - 1) / 25)));
    destruct (Nat.eqb_spec (j mod 25) 0);
    destruct (Nat.leb_spec 25 j);
    cbn [andb negb];
    (split;
     [ first [ reflexivity
             | exfalso; zify; Z.to_euclidean_division_equations; lia ]
     | zify; Z.to_euclidean_division_equations; lia ]).
Qed.

Lemma progressLogs_step (j k : nat) :
  progressLogs j (S k)
  = (if ((j mod 25 =? 0) && (25 <=? j))%nat then [Z.of_nat (j / 5)] else [])
    ++ progressLogs (S j) k.
Proof. reflexivity. Qed.

(** [k] quiet turns from poll [j] on: the progress messages written are
    those of the polls [j .. j + k - 1]. *)
Lemma forever_waits_logging (k : nat) :
  forall (fuel : nat) (start : Time) (j : nat) (w : World),
    clock w = pollInstant start j ->
    (j + k <= fatalTurn)%nat ->
    (forall i, (i < k)%nat ->
               somePeerUp (gsp w) (pollInstant start (j + i)) = false) ->
    exists tr,
      forever (k + fuel) (waitTurn start) (lastWarnAt j) w
      = forever fuel (waitTurn start) (lastWarnAt (j + k))
          (advance w (Z.of_nat k * waitForUpDelay) tr)
      /\ logsOf LevelInfo tr = progressLogs j k
      /\ logsOf LevelFatal tr = [].
Proof.
  induction k as [| k IH]; intros fuel start j w Hclock Hbound Hquiet.
  - exists []. repeat split.
    simpl. rewrite advance_zero. now rewrite Nat.add_0_r.
  - assert (Helapsed : wholeSeconds (clock w - start) = Z.of_nat (j / 5)).
    { rewrite Hclock, pollInstant_elapsed. apply wholeSeconds_of_poll. }
    assert (Hup : somePeerUp (gsp w) (clock w) = false).
    { rewrite Hclock. specialize (Hquiet 0%nat ltac:(lia)).
      now rewrite Nat.add_0_r in Hquiet. }
    assert (Hbelow : wholeSeconds (clock w - start) <= 600).
    { rewrite Hclock, pollInstant_elapsed.
      apply wholeSeconds_before_fatalTurn. lia. }
    destruct (waitTurn_quiet_logs start (lastWarnAt j) w Hup Hbelow)
      as [tr1 [Hturn [Hinfo1 Hfatal1]]].
    rewrite Helapsed in Hturn, Hinfo1.
    destruct (warnDue_at_poll j) as [Hdue Hnext].
    rewrite Hnext in Hturn. rewrite Hdue in Hinfo1.
    change (S k + fuel)%nat with (S (k + fuel)). cbn [forever].
    rewrite Hturn.
    destruct (IH fuel start (S j) (advance w waitForUpDelay tr1))
      as [tr2 [Hrest [Hinfo2 Hfatal2]]].
    { cbn [advance clock]. rewrite Hclock. unfold pollInstant.
      rewrite Nat2Z.inj_succ. lia. }
    { lia. }
    { intros i Hi. cbn [advance gsp].
      replace (S j + i)%nat with (j + S i)%nat by lia. apply Hquiet. lia. }
    rewrite Hrest, advance_advance.
    replace (S j + k)%nat with (j + S k)%nat by lia.
    exists (tr1 ++ tr2). split; [| split].
    + f_equal. f_equal. rewrite Nat2Z.inj_succ. lia.
    + rewrite logsOf_app, Hinfo1, Hinfo2. symmetry. apply progressLogs_step.
    + rewrite logsOf_app, Hfatal1, Hfatal2. reflexivity.
Qed.

Lemma progressLogs_until_fatalTurn :
  progressLogs 0 fatalTurn = map (fun m => 5 * Z.of_nat m) (seq 1 120).
Proof. vm_compute. reflexivity. Qed.

(** X16. While it waits, [WaitForPeersUp] logs "Waiting for peer after N
    seconds" once for each multiple of five seconds elapsed, although five
    polls fall in every second: when it returns at poll [k] the messages
    written are those of the polls before [k] that fall on such a multiple,
    and a wait that ends in the fatal exit has written the 120 messages for
    5, 10, ..., 600 seconds and one fatal message that reports 601
    seconds. *)
Theorem WaitForPeersUp_progress_messages (w : World) (fuel : nat) :
  Peers (discoverer (gsp w)) (clock w) <> [] ->
  (fatalTurn < fuel)%nat ->
  (forall k,
      (k <= fatalTurn)%nat ->
      (forall j, (j < k)%nat ->
                 somePeerUp (gsp w) (pollInstant (clock w) j) = false) ->
      somePeerUp (gsp w) (pollInstant (clock w) k) = true ->
      exists tr,
        WaitForPeersUp fuel w
        = Some (Returned tt, advance w (Z.of_nat k * waitForUpDelay) tr)
        /\ logsOf LevelInfo tr = progressLogs 0 k
        /\ logsOf LevelFatal tr = [])
  /\ ((forall j, (j <= fatalTurn)%nat ->
                 somePeerUp (gsp w) (pollInstant (clock w) j) = false) ->
      exists tr,
        WaitForPeersUp fuel w
        = Some (Exited 1, advance w (Z.of_nat fatalTurn * waitForUpDelay) tr)
        /\ logsOf LevelInfo tr = map (fun m => 5 * Z.of_nat m) (seq 1 120)
        /\ logsOf LevelFatal tr = [601]).
Proof.
  intros Hpeers Hfuel.
  assert (Hentry : forall k, (k < fuel)%nat ->
            WaitForPeersUp fuel w
            = forever (k + S (fuel - k - 1)) (waitTurn (clock w)) (lastWarnAt 0) w).
  { intros k Hk. unfold WaitForPeersUp.
    destruct (Peers (discoverer (gsp w)) (clock w)) as [| p ps];
      [contradiction |].
    cbn [List.length]. rewrite Nat2Z.inj_succ.
    destruct (Z.eqb_spec (Z.succ (Z.of_nat (List.length ps))) 0) as [Hz | _];
      [lia |].
    replace (k + S (fuel - k - 1))%nat with fuel by lia. reflexivity. }
  assert (Hstart : clock w = pollInstant (clock w) 0)
    by (unfold pollInstant; simpl; lia).
  split.
  - intros k Hk Hquiet Hup.
    rewrite (Hentry k) by lia.
    destruct (forever_waits_logging k (S (fuel - k - 1)) (clock w) 0%nat w
                Hstart ltac:(lia) Hquiet) as [tr1 [Hrun [Hinfo1 Hfatal1]]].
    rewrite Hrun. cbn [forever].
    destruct (waitTurn_break_logs (clock w) (lastWarnAt (0 + k))
                (advance w (Z.of_nat k * waitForUpDelay) tr1))
      as [tr2 [Hturn Hlog2]].
    { exact Hup. }
    rewrite Hturn, advance_advance, Z.add_0_r.
    exists (tr1 ++ tr2). split; [reflexivity |].
    rewrite !logsOf_app, !Hlog2, Hinfo1, Hfatal1, !app_nil_r. now split.
  - intros Hquiet.
    rewrite (Hentry fatalTurn) by lia.
    destruct (forever_waits_logging fatalTurn (S (fuel - fatalTurn - 1)) (clock w)
                0%nat w Hstart ltac:(lia)
                ltac:(intros i Hi; apply Hquiet; lia))
      as [tr1 [Hrun [Hinfo1 Hfatal1]]].
    rewrite Hrun. cbn [forever].
    assert (Helapsed :
              wholeSeconds
                (clock (advance w (Z.of_nat fatalTurn * waitForUpDelay) tr1)
                 - clock w) = 601).
    { cbn [advance clock].
      replace (clock w + Z.of_nat fatalTurn * waitForUpDelay - clock w)
        with (Z.of_nat fatalTurn * waitForUpDelay) by lia.
      apply wholeSeconds_at_fatalTurn. }
    destruct (waitTurn_fatal_logs (clock w) (lastWarnAt (0 + fatalTurn))
                (advance w (Z.of_nat fatalTurn * waitForUpDelay) tr1))
      as [tr2 [Hturn [Hinfo2 Hfatal2]]].
    { apply Hquiet. lia. }
    { rewrite Helapsed. lia. }
    rewrite Helapsed in Hinfo2, Hfatal2.
    assert (Hnot : warnDue 601 (lastWarnAt (0 + fatalTurn)) = false)
      by reflexivity.
    rewrite Hnot in Hinfo2.
    rewrite Hturn, advance_advance, Z.add_0_r.
    exists (tr1 ++ tr2). split; [reflexivity |].
    rewrite !logsOf_app, Hinfo1, Hinfo2, Hfatal1, Hfatal2, app_nil_r.
    split; [apply progressLogs_until_fatalTurn | reflexivity].
Qed.

Lemma WaitForPeersUp_logs_nothing_when_peer_is_up :
  exists tr,
    WaitForPeersUp 3006 (connectedWorld JNull 0)
    = Some (Returned tt,
            advance (connectedWorld JNull 0) (Z.of_nat 0 * waitForUpDelay) tr)
    /\ logsOf LevelInfo tr = progressLogs 0 0
    /\ logsOf LevelFatal tr = [].
Proof.
  apply (proj1 (WaitForPeersUp_progress_messages (connectedWorld JNull 0) 3006
                  ltac:(simpl; discriminate)
                  ltac:(unfold fatalTurn; lia)) 0%nat).
  - unfold fatalTurn. lia.
  - intros j Hj. lia.
  - reflexivity.
Defined.

(** X17. The shortcut for a node without peers is taken on entry only: when
    the discoverer reports a peer at the start and an empty list at every
    later poll, the wait goes on and ends in the fatal exit at poll 3005. *)
Theorem WaitForPeersUp_emptied_peer_list_is_fatal (w : World) (fuel : nat) :
  Peers (discoverer (gsp w)) (clock w) <> [] ->
  (fatalTurn < fuel)%nat ->
  somePeerUp (gsp w) (clock w) = false ->
  (forall j, (1 <= j <= fatalTurn)%nat ->
             Peers (discoverer (gsp w)) (pollInstant (clock w) j) = []) ->
  exists tr,
    WaitForPeersUp fuel w
    = Some (Exited 1, advance w (Z.of_nat fatalTurn * waitForUpDelay) tr).
Proof.
  intros Hpeers Hfuel Hfirst Hempty.
  destruct (barrier_exits w fuel Hpeers Hfuel) as [tr [Hrun _]].
  - intros j Hj. destruct j as [| j].
    + unfold pollInstant. simpl. now rewrite Z.add_0_r.
    + unfold somePeerUp. now rewrite Hempty by lia.
  - now exists tr.
Qed.

Lemma WaitForPeersUp_vanishing_peers_is_fatal :
  exists tr,
    WaitForPeersUp 3006 (freshWorld vanishingDiscoverer)
    = Some (Exited 1,
            advance (freshWorld vanishingDiscoverer)
              (Z.of_nat fatalTurn * waitForUpDelay) tr).
Proof.
  apply (WaitForPeersUp_emptied_peer_list_is_fatal (freshWorld vanishingDiscoverer) 3006).
  - simpl. discriminate.
  - unfold fatalTurn. lia.
  - reflexivity.
  - intros j Hj. simpl.
    destruct (Z.eqb_spec (Z.of_nat j * waitForUpDelay) 0) as [Hz | _];
      [| reflexivity].
    unfold waitForUpDelay, Millisecond in Hz. lia.
Defined.

(* ================================================================= *)
(** ** Reading the frame of a response item back *)

Lemma app_same_length_inv {A : Type} (a a' b b' : list A) :
  List.length a = List.length a' -> a ++ b = a' ++ b' -> a = a' /\ b = b'.
Proof.
  revert a'. induction a as [| x a IH]; intros [| x' a'] Hlen Heq;
    try discriminate Hlen.
  - now split.
  - simpl in Heq. inversion Heq; subst.
    destruct (IH a' ltac:(simpl in Hlen; lia) H1) as [-> ->]. now split.
Qed.

Lemma list_byte_of_string_length (s : string) :
  List.length (list_byte_of_string s) = String.length s.
Proof.
  induction s as [| c s IH]; [reflexivity |].
  cbn. now rewrite <- IH.
Qed.

Lemma putFixed_same_value (order : ByteOrder) (n : nat) (a b : Z) :
  putFixed order n a = putFixed order n b ->
  a mod 256 ^ Z.of_nat n = b mod 256 ^ Z.of_nat n.
Proof.
  intros Heq. rewrite <- (fixedValue_putFixed order n a).
  rewrite <- (fixedValue_putFixed order n b). now rewrite Heq.
Qed.

(** X18. The frame of a response item can be read back without ambiguity:
    for items whose token fits 64 bits, whose generation id fits 16 bits
    and whose topic name is shorter than 256 bytes, two frames (each
    followed by anything) that are the same bytes come from the same topic
    id (name, token and generation id), and the bytes after the name agree
    as well. *)
Theorem framedItem_determines_topic (order : ByteOrder)
  (i1 i2 : consumerResponseItem) (rest1 rest2 : list byte) :
  inInt64 (TToken (topic i1)) = true ->
  inInt64 (TToken (topic i2)) = true ->
  0 <= GenId (topic i1) < 2 ^ 16 ->
  0 <= GenId (topic i2) < 2 ^ 16 ->
  (String.length (Name (topic i1)) < 256)%nat ->
  (String.length (Name (topic i2)) < 256)%nat ->
  framedItem order i1 ++ rest1 = framedItem order i2 ++ rest2 ->
  topic i1 = topic i2
  /\ DataBlock (chunk i1) ++ rest1 = DataBlock (chunk i2) ++ rest2.
Proof.
  intros Ht1 Ht2 Hg1 Hg2 Hn1 Hn2 Heq.
  unfold framedItem in Heq. rewrite <- !app_assoc in Heq.
  apply app_same_length_inv in Heq; [| now rewrite !putFixed_length].
  destruct Heq as [Htoken Heq].
  apply app_same_length_inv in Heq; [| now rewrite !putFixed_length].
  destruct Heq as [Hgen Heq].
  apply app_same_length_inv in Heq; [| now rewrite !putFixed_length].
  destruct Heq as [Hlen Heq].
  apply putFixed_same_value in Htoken, Hgen, Hlen.
  unfold uint8 in Hlen.
  change (256 ^ Z.of_nat 8) with 18446744073709551616 in Htoken.
  change (256 ^ Z.of_nat 2) with 65536 in Hgen.
  change (256 ^ Z.of_nat 1) with 256 in Hlen.
  change (2 ^ 8) with 256 in Hlen.
  change (2 ^ 16) with 65536 in Hg1, Hg2.
  unfold inInt64 in Ht1, Ht2.
  apply andb_prop in Ht1, Ht2.
  destruct Ht1 as [Hlo1 Hhi1], Ht2 as [Hlo2 Hhi2].
  apply Z.leb_le in Hlo1, Hlo2. apply Z.ltb_lt in Hhi1, Hhi2.
  change (2 ^ 63) with 9223372036854775808 in Hlo1, Hlo2, Hhi1, Hhi2.
  assert (Etoken : TToken (topic i1) = TToken (topic i2))
    by (Z.to_euclidean_division_equations; lia).
  assert (Egen : GenId (topic i1) = GenId (topic i2))
    by (Z.to_euclidean_division_equations; lia).
  assert (Elen : String.length (Name (topic i1)) = String.length (Name (topic i2)))
    by (Z.to_euclidean_division_equations; lia).
  apply app_same_length_inv in Heq;
    [| now rewrite !list_byte_of_string_length].
  destruct Heq as [Hname Hdata].
  assert (Ename : Name (topic i1) = Name (topic i2)).
  { rewrite <- (string_of_list_byte_of_string (Name (topic i1))).
    rewrite <- (string_of_list_byte_of_string (Name (topic i2))).
    now rewrite Hname. }
  split; [| exact Hdata].
  destruct (topic i1) as [n1 t1 g1], (topic i2) as [n2 t2 g2].
  simpl in *. now subst.
Qed.

Lemma framedItem_determines_sample_topic :
  {| Name := "orders"; TToken := -5; GenId := 3 |}
  = {| Name := "orders"; TToken := -5; GenId := 3 |}
  /\ [x01; x02] ++ [xff] = [x01] ++ [x02; xff].
Proof.
  apply (framedItem_determines_topic LittleEndian
           {| chunk := {| DataBlock := [x01; x02] |};
              topic := {| Name := "orders"; TToken := -5; GenId := 3 |} |}
           {| chunk := {| DataBlock := [x01] |};
              topic := {| Name := "orders"; TToken := -5; GenId := 3 |} |}
           [xff] [x02; xff]).
  - reflexivity.
  - reflexivity.
  - simpl. lia.
  - simpl. lia.
  - simpl. lia.
  - simpl. lia.
  - reflexivity.
Defined.

(* ================================================================= *)
(** ** Registration, then a proposal *)

(** X19. Registration and the proposal handler compose: on a gossiper
    without listener, once [RegisterGenListener] has returned for a
    listener, a well-formed pair posted next is handed to that very
    listener, and the answer is the listener's. *)
Theorem registered_listener_receives_the_pair `{GoLib}
  (tokenParam : string) (token : Z) (existing : option Generation)
  (new : Generation) (l : GenListener) (w : World) :
  libFaithful ->
  parseInt64 tokenParam = Some token ->
  (forall g, existing = Some g -> fitsInt64 g) ->
  fitsInt64 new ->
  genListener (gsp w) = None ->
  exists w1,
    RegisterGenListener (Some l) w = (Returned tt, w1)
    /\ (RegisterGenListener (Some l) ;;;
        postGenHandler tokenParam
          (Some (JArr [marshalGenerationPtr existing; marshalGeneration new]))) w
       = (Returned (OnNewRemoteGeneration l existing (Some new)),
          withEvents w1 [EvNewRemoteGeneration existing (Some new)]).
Proof.
  intros Hlib Hparse Hexisting Hnew Hnone.
  assert (Hreg : RegisterGenListener (Some l) w
                 = (Returned tt,
                    {| gsp := {| discoverer := discoverer (gsp w);
                                 localDb := localDb (gsp w);
                                 genListener := Some l;
                                 connections := connections (gsp w) |};
                       clock := clock w; trace := trace w |})).
  { unfold RegisterGenListener, bind, self. now rewrite Hnone. }
  eexists. split; [exact Hreg |].
  unfold bind at 1. rewrite Hreg.
  apply (postGenHandler_forwards_pair tokenParam token _ existing new l _ Hparse);
    [| reflexivity].
  unfold decodeGenerationPtrs. cbn [mapResult].
  rewrite (unmarshalGenerationPtr_marshal existing Hlib Hexisting).
  change (marshalGeneration new) with (marshalGenerationPtr (Some new)).
  rewrite (unmarshalGenerationPtr_marshal (Some new) Hlib)
    by (intros g Hg; inversion Hg; subst; exact Hnew).
  reflexivity.
Qed.

Lemma registered_listener_receives_sample_pair :
  exists w1,
    RegisterGenListener (Some otherListener) (freshWorld trioDiscoverer)
    = (Returned tt, w1)
    /\ (RegisterGenListener (Some otherListener) ;;;
        @postGenHandler sampleLib "42"
          (Some (JArr [@marshalGenerationPtr sampleLib None;
                       @marshalGeneration sampleLib sampleGeneration])))
         (freshWorld trioDiscoverer)
       = (Returned (OnNewRemoteGeneration otherListener None (Some sampleGeneration)),
          withEvents w1 [EvNewRemoteGeneration None (Some sampleGeneration)]).
Proof.
  apply (@registered_listener_receives_the_pair sampleLib "42" 42 None
           sampleGeneration otherListener (freshWorld trioDiscoverer)).
  - exact sampleLib_faithful.
  - reflexivity.
  - intros g Hg. discriminate Hg.
  - unfold fitsInt64. simpl. repeat split; repeat constructor.
  - reflexivity.
Defined.

